(** * Emotion_understanding: the two camera test scripts

    A shallow embedding of [webcam-test.py] and [realsense-camera-test.py].

    Both scripts are sequences of calls into OpenCV, numpy and the RealSense
    SDK.  A run is modelled as the list of observable calls it makes (its
    trace) together with the way it ends.  What the outside world answers
    (which camera opens, which frame arrives, which key is polled, which
    call raises) is taken from an environment record; the [k]-th iteration
    of a streaming loop asks the environment for its [k]-th answer. *)

From stdpp Require Import base list gmap sorting strings pretty.
From Stdlib Require Import Ascii ZArith QArith Qround Qabs Qpower Qfield Lia Lqa.

Local Open Scope Z_scope.

(** ** Python values and control flow *)

(** A raised exception, with its [str()]: an instance of [ValueError] or of
    a subclass of it ([UnicodeDecodeError]), an instance of [Exception] that
    is no [ValueError] ([EOFError], [RuntimeError], [cv2.error]), or one that
    derives from [BaseException] only ([KeyboardInterrupt]). *)
Inductive exn :=
| ValueError (msg : string)
| Exception (msg : string)
| KeyboardInterrupt.

Definition is_ValueError (err : exn) : bool :=
  match err with ValueError _ => true | _ => false end.

(** How a computation stands: it produced a value, it raised, or its
    [while True] loop is still streaming after the iterations observed. *)
Inductive result (A : Type) :=
| Ok (a : A)
| Raise (e : exn)
| Streaming.
Arguments Ok {A} a.
Arguments Raise {A} e.
Arguments Streaming {A}.

(** What a call into a library answers: a value, or an exception. *)
Inductive answer (A : Type) :=
| Returns (a : A)
| Raises (e : exn).
Arguments Returns {A} a.
Arguments Raises {A} e.

Inductive backend := CAP_ANY | CAP_V4L2.

Definition pixel : Type := Z * Z * Z.

(** An array of shape (height, width, ...) as its list of rows. *)
Definition image (A : Type) : Type := list (list A).

Definition has_shape {A} (h w : nat) (img : image A) : Prop :=
  length img = h ∧ Forall (λ row, length row = w) img.

(** The calls a run makes, in the order it makes them. *)
Inductive event :=
| Print (s : string)
| Input (prompt reply : string)
| VideoCapture (index : Z) (apiPreference : option backend) (isOpened : bool)
| Release (index : Z) (apiPreference : option backend)
| CapRead (ret : bool)
| PipelineStart
| WaitForFrames (depth_frame color_frame : bool)
| PipelineStop
| NamedWindow (winname : string)
| Imshow (winname : string) (mat : image pixel)
| WaitKey (delay key : Z)
| DestroyAllWindows.

Definition prog (A : Type) : Type := list event * result A.

Definition ret {A} (a : A) : prog A := ([], Ok a).

Definition raise {A} (e : exn) : prog A := ([], Raise e).

Definition emit (ev : event) : prog unit := ([ev], Ok tt).

Definition bind {A B} (m : prog A) (k : A → prog B) : prog B :=
  match m with
  | (t, Ok a) => let '(t', r) := k a in (t ++ t', r)
  | (t, Raise e) => (t, Raise e)
  | (t, Streaming) => (t, Streaming)
  end.

Declare Scope prog_scope.
Delimit Scope prog_scope with prog.
Notation "'let*' x ':=' m 'in' k" := (bind m (λ x, k))
  (at level 10, x name, m at level 100, k at level 200) : prog_scope.
Notation "m ';;' k" := (bind m (λ _, k))
  (at level 100, k at level 200, right associativity) : prog_scope.
Local Open Scope prog_scope.

Definition print (s : string) : prog unit := emit (Print s).

(** A call that returns a value of the environment or raises. *)
Definition call {A} (r : answer A) (ev : A → list event) : prog A :=
  match r with
  | Returns a => (ev a, Ok a)
  | Raises e => ([], Raise e)
  end.

(** [try: body finally: handler] where the handler itself does not leave the
    function: the handler runs as soon as the body has ended, whichever way,
    and the body's way of ending stands. *)
Definition try_finally {A} (body : prog A) (handler : prog unit) : prog A :=
  match body with
  | (t, Streaming) => (t, Streaming)
  | (t, r) =>
      match handler with
      | (t', Ok _) => (t ++ t', r)
      | (t', Raise e) => (t ++ t', Raise e)
      | (t', Streaming) => (t ++ t', Streaming)
      end
  end.

(** [try: body except ValueError: handler]: the handler runs when the body
    raised a [ValueError], and only then. *)
Definition try_except_ValueError {A} (body handler : prog A) : prog A :=
  match body with
  | (t, Raise (ValueError _)) => let '(t', r) := handler in (t ++ t', r)
  | _ => body
  end.

(** [for x in xs: s = body(s, x)] *)
Fixpoint for_in {S A} (xs : list A) (body : S → A → prog S) (s : S) : prog S :=
  match xs with
  | [] => ret s
  | x :: xs' => let* s' := body s x in for_in xs' body s'
  end.

Inductive ctl := Continue | Break.

(** [while True: body], observed for at most [fuel] iterations, the first of
    them being iteration number [k]. *)
Fixpoint while_true (body : nat → prog ctl) (fuel : nat) (k : nat) : prog unit :=
  match fuel with
  | O => ([], Streaming)
  | S fuel' =>
      let* c := body k in
      match c with
      | Break => ret tt
      | Continue => while_true body fuel' (S k)
      end
  end.

Definition ord (c : ascii) : Z := Z.of_nat (nat_of_ascii c).

(** The exit test shared by all three loops:
    [key & 0xFF == ord('q') or key == 27]. *)
Definition quit_key (key : Z) : bool :=
  (Z.land key 0xFF =? ord "q") || (key =? 27).

(** [sorted(list(set(l)))] *)
Definition sorted_list_set (l : list Z) : list Z :=
  merge_sort Z.le (elements (list_to_set l : gset Z)).

(** How often an event of a kind occurs in a trace. *)
Definition count (p : event → bool) (t : list event) : nat :=
  length (filter (λ ev, p ev = true) t).

Definition is_stream_release (ev : event) : bool :=
  match ev with Release _ None => true | _ => false end.

Definition is_destroy (ev : event) : bool :=
  match ev with DestroyAllWindows => true | _ => false end.

Definition is_pipeline_stop (ev : event) : bool :=
  match ev with PipelineStop => true | _ => false end.

Definition is_input (ev : event) : bool :=
  match ev with Input _ _ => true | _ => false end.

Definition is_stream_open (ev : event) : bool :=
  match ev with VideoCapture _ None _ => true | _ => false end.

Definition is_imshow (ev : event) : bool :=
  match ev with Imshow _ _ => true | _ => false end.

Definition newline : string := String "010" EmptyString.

(** ** webcam-test.py *)
Module WebcamTest.

Record env := {
  (** [cv2.VideoCapture(i, api).isOpened()] while searching *)
  probe_opens : Z → backend → bool;
  (** what [input] returns, or the exception it raises (end of input) *)
  stdin : answer string;
  (** [cv2.VideoCapture(i).isOpened()] for the stream *)
  stream_opens : Z → bool;
  (** the [k]-th [cap.read()]: raises, or [(False, None)], or [(True, frame)] *)
  cap_read : nat → answer (option (image pixel));
  (** the exception the [k]-th [cv2.imshow] raises, if it does *)
  imshow_raises : nat → option exn;
  (** the [k]-th [cv2.waitKey(1)] *)
  waitKey : nat → answer Z
}.

Section Run.
(** The builtin [int] on a string: the integer, or [None] for [ValueError]. *)
Variable int : string → option Z.
Variable e : env.

(** One round of the search loop, lines 16-32. *)
Definition search_index (available_indices : list Z) (i : Z) : prog (list Z) :=
  let cap_test_any := probe_opens e i CAP_ANY in
  emit (VideoCapture i (Some CAP_ANY) cap_test_any);;
  if cap_test_any then
    print ("Success: Found a working camera at index " +:+ pretty i +:+ ".");;
    let available_indices := available_indices ++ [i] in
    emit (Release i (Some CAP_ANY));;
    ret available_indices
  else
    let cap_test_v4l := probe_opens e i CAP_V4L2 in
    emit (VideoCapture i (Some CAP_V4L2) cap_test_v4l);;
    if cap_test_v4l then
      print ("Success: Found a working camera at index " +:+ pretty i
             +:+ " (using V4L2).");;
      let available_indices := available_indices ++ [i] in
      emit (Release i (Some CAP_V4L2));;
      ret available_indices
    else ret available_indices.

Definition search : prog (list Z) :=
  for_in (seqZ 0 5) search_index [].

(** Lines 35-62.  [None] stands for the [return] statements: no camera is
    chosen and [run_webcam] ends. *)
Definition selection_logic (available_indices : list Z) : prog (option Z) :=
  match available_indices with
  | [] =>
      print "Error: Could not open any webcam. Tried indices 0-4.";;
      print "Please ensure your webcam is connected and drivers are installed.";;
      ret None
  | [found_cam_index] => ret (Some found_cam_index)
  | _ =>
      print (newline +:+ "Found multiple cameras. Please choose:");;
      let unique_indices := sorted_list_set available_indices in
      for_in unique_indices
        (λ _ idx, print ("  " +:+ pretty idx +:+ ": Camera at index " +:+ pretty idx))
        tt;;
      try_except_ValueError
        (let* choice_str := call (stdin e) (λ s, [Input "Enter camera index: " s]) in
         match int choice_str with
         | Some choice_int =>
             if bool_decide (choice_int ∈ unique_indices) then ret (Some choice_int)
             else print "Invalid selection. Exiting.";; ret None
         | None => raise (ValueError "invalid literal for int() with base 10")
         end)
        (print "Invalid input. Please enter a number. Exiting.";;
         ret None)
  end.

(** The body of the streaming loop, lines 75-89, at iteration [k]. *)
Definition loop_body (k : nat) : prog ctl :=
  let* frame := call (cap_read e k) (λ r, [CapRead (bool_decide (is_Some r))]) in
  match frame with
  | None =>
      print "Error: Can't receive frame (stream end?). Exiting ...";;
      ret Break
  | Some frame =>
      match imshow_raises e k with
      | Some err => raise err
      | None =>
          emit (Imshow "Normal Webcam" frame);;
          let* key := call (waitKey e k) (λ key, [WaitKey 1 key]) in
          if quit_key key then ret Break else ret Continue
      end
  end.

(** Lines 64-95. *)
Definition start_stream (fuel : nat) (found_cam_index : Z) : prog unit :=
  print ("Starting webcam stream from index " +:+ pretty found_cam_index +:+ "...");;
  let cap := stream_opens e found_cam_index in
  emit (VideoCapture found_cam_index None cap);;
  if negb cap then
    print ("Error: Failed to open camera at index " +:+ pretty found_cam_index
           +:+ " (it may be in use).")
  else
    try_finally
      (while_true loop_body fuel 0)
      (print "Stopping webcam stream...";;
       emit (Release found_cam_index None);;
       emit DestroyAllWindows).

Definition run_webcam (fuel : nat) : prog unit :=
  print "Searching for a working webcam...";;
  let* available_indices := search in
  let* found_cam_index := selection_logic available_indices in
  match found_cam_index with
  | None => ret tt
  | Some found_cam_index => start_stream fuel found_cam_index
  end.

End Run.

End WebcamTest.

(** ** The OpenCV and numpy operations of the depth colorizer *)

(** [cvRound]: to the nearest integer, a tie to the even one. *)
Definition cvRound (x : Q) : Z :=
  let f := Qfloor x in
  match Qcompare (x - inject_Z f) (1 # 2) with
  | Lt => f
  | Gt => f + 1
  | Eq => if Z.even f then f else f + 1
  end.

(** [saturate_cast<uchar>] of an integer. *)
Definition saturate_cast_uchar (v : Z) : Z :=
  if v <? 0 then 0 else if 255 <? v then 255 else v.

Section Colorizer.
(** OpenCV evaluates [src*alpha + beta] in single precision; [muladd32 src
    alpha beta] is the value it obtains. *)
Variable muladd32 : Z → Q → Q → Q.
(** The 256 entries of the colour table [cv2.COLORMAP_JET]. *)
Variable COLORMAP_JET : Z → pixel.

(** [cv2.convertScaleAbs(src, alpha=alpha)] on one sample and on a grid:
    [saturate_cast<uchar>(|src*alpha + beta|)] with [beta] left at 0. *)
Definition convertScaleAbs1 (alpha : Q) (src : Z) : Z :=
  saturate_cast_uchar (cvRound (Qabs (muladd32 src alpha 0))).

Definition convertScaleAbs (src : image Z) (alpha : Q) : image Z :=
  map (map (convertScaleAbs1 alpha)) src.

(** [cv2.applyColorMap(src, colormap)]: a table lookup per sample. *)
Definition applyColorMap (src : image Z) (colormap : Z → pixel) : image pixel :=
  map (map colormap) src.

(** [np.hstack((a, b))] of two arrays of three dimensions: the rows are joined
    pairwise; arrays of different heights raise [ValueError]. *)
Definition hstack {A} (a b : image A) : answer (image A) :=
  if decide (length a = length b) then Returns (zip_with app a b)
  else Raises (Exception "all the input array dimensions except for the concatenation axis must match exactly").

(** Lines 59-62 of realsense-camera-test.py. *)
Definition depth_colormap (depth_image : image Z) : image pixel :=
  applyColorMap (convertScaleAbs depth_image (3 # 100)) COLORMAP_JET.

End Colorizer.

(** ** Single-precision arithmetic *)

(** The exponent of a positive rational: the [k] with [2^k <= x < 2^(k+1)]. *)
Definition ilog2 (x : Q) : Z :=
  let k := (Z.log2 (Qnum x) - Z.log2 (Zpos (Qden x)))%Z in
  if Qle_bool (2 ^ k)%Q x then k else (k - 1)%Z.

(** [x] rounded to a multiple of [2^e], a tie to the even multiple. *)
Definition round_to (e : Z) (x : Q) : Q :=
  Qred (inject_Z (cvRound (x / 2 ^ e)) * 2 ^ e)%Q.

(** Rounding to IEEE 754 binary32 (24 significant bits, to nearest, ties to
    even) of a rational in the range of the normal numbers. *)
Definition round32 (x : Q) : Q :=
  match Qnum x with
  | Zpos _ => round_to (ilog2 x - 23)%Z x
  | Z0 => 0%Q
  | Zneg _ => Qopp (round_to (ilog2 (Qopp x) - 23)%Z (Qopp x))
  end.

(** [src*alpha + beta] as OpenCV evaluates it for 16-bit sources: [alpha] and
    [beta] are converted to [float], the product and the sum are rounded to
    [float]. *)
Definition muladd32_ieee (src : Z) (alpha beta : Q) : Q :=
  round32 (round32 (inject_Z src * round32 alpha) + round32 beta)%Q.

(** ** realsense-camera-test.py *)
Module RealsenseCameraTest.

Record env := {
  (** what [input] returns in [main], or the exception it raises *)
  stdin : answer string;
  (** the exception [pipeline.start(config)] raises, if it does *)
  pipeline_start : option exn;
  (** the [k]-th [pipeline.wait_for_frames()] after [align.process]: raises,
      or the aligned pair, either member of which may be missing *)
  wait_for_frames : nat → answer (option (image Z) * option (image pixel));
  (** [cv2.VideoCapture(0).isOpened()] *)
  cap_opens : bool;
  (** the [k]-th [cap.read()] *)
  cap_read : nat → answer (option (image pixel));
  (** the exception the [k]-th [cv2.imshow] raises, if it does *)
  imshow_raises : nat → option exn;
  (** the [k]-th [cv2.waitKey(1)] *)
  waitKey : nat → answer Z
}.

Section Run.
Variable muladd32 : Z → Q → Q → Q.
Variable COLORMAP_JET : Z → pixel.
Variable e : env.

(** The body of the loop of [run_realsense], lines 36-75, at iteration [k]. *)
Definition realsense_body (k : nat) : prog ctl :=
  let* aligned_frames :=
    call (wait_for_frames e k)
         (λ fs, [WaitForFrames (bool_decide (is_Some fs.1)) (bool_decide (is_Some fs.2))]) in
  match aligned_frames with
  | (Some depth_image, Some color_image) =>
      let depth_colormap := depth_colormap muladd32 COLORMAP_JET depth_image in
      let* images := call (hstack color_image depth_colormap) (λ _, []) in
      emit (NamedWindow "RealSense Color and Depth");;
      match imshow_raises e k with
      | Some err => raise err
      | None =>
          emit (Imshow "RealSense Color and Depth" images);;
          let* key := call (waitKey e k) (λ key, [WaitKey 1 key]) in
          if quit_key key then ret Break else ret Continue
      end
  | _ => ret Continue
  end.

(** Lines 5-81.  The [finally] block holds the [print] alone; stopping the
    pipeline and closing the windows follow the [try] statement. *)
Definition run_realsense (fuel : nat) : prog unit :=
  print "Starting RealSense pipeline...";;
  match pipeline_start e with
  | Some (ValueError msg) | Some (Exception msg) =>
      print ("Failed to start RealSense pipeline: " +:+ msg);;
      print "Is the RealSense camera plugged in?"
  | Some KeyboardInterrupt => raise KeyboardInterrupt
  | None =>
      emit PipelineStart;;
      try_finally
        (while_true realsense_body fuel 0)
        (print "Stopping RealSense pipeline...");;
      emit PipelineStop;;
      emit DestroyAllWindows
  end.

(** The body of the loop of [run_webcam], lines 99-113, at iteration [k]. *)
Definition webcam_body (k : nat) : prog ctl :=
  let* frame := call (cap_read e k) (λ r, [CapRead (bool_decide (is_Some r))]) in
  match frame with
  | None =>
      print "Error: Can't receive frame (stream end?). Exiting ...";;
      ret Break
  | Some frame =>
      match imshow_raises e k with
      | Some err => raise err
      | None =>
          emit (Imshow "Normal Webcam" frame);;
          let* key := call (waitKey e k) (λ key, [WaitKey 1 key]) in
          if quit_key key then ret Break else ret Continue
      end
  end.

(** Lines 83-119. *)
Definition run_webcam (fuel : nat) : prog unit :=
  let cap := cap_opens e in
  emit (VideoCapture 0 None cap);;
  if negb cap then
    print "Error: Failed to open camera at index (it may be in use)."
  else
    try_finally
      (while_true webcam_body fuel 0)
      (print "Stopping webcam stream...";;
       emit (Release 0 None);;
       emit DestroyAllWindows).

(** Lines 121-135. *)
Definition main (fuel : nat) : prog unit :=
  print "Please select a camera source:";;
  print "  1: Intel RealSense (Color + Depth)";;
  print "  2: Normal Webcam (Color only)";;
  let* choice := call (stdin e) (λ s, [Input "Enter choice (1 or 2): " s]) in
  if String.eqb choice "1" then run_realsense fuel
  else if String.eqb choice "2" then run_webcam fuel
  else print "Invalid choice. Please run the script again and enter 1 or 2.".

End Run.

End RealsenseCameraTest.

(** ** The contract of the search, in the words of the specification *)

(** What the Device Prober does for one index: backend A first, backend B
    only after A failed; a handle that opened is closed at once. *)
Definition probe_contract (e : WebcamTest.env) (i : Z) : list event :=
  if WebcamTest.probe_opens e i CAP_ANY then
    [VideoCapture i (Some CAP_ANY) true;
     Print ("Success: Found a working camera at index " +:+ pretty i +:+ ".");
     Release i (Some CAP_ANY)]
  else if WebcamTest.probe_opens e i CAP_V4L2 then
    [VideoCapture i (Some CAP_ANY) false;
     VideoCapture i (Some CAP_V4L2) true;
     Print ("Success: Found a working camera at index " +:+ pretty i
            +:+ " (using V4L2).");
     Release i (Some CAP_V4L2)]
  else
    [VideoCapture i (Some CAP_ANY) false;
     VideoCapture i (Some CAP_V4L2) false].

(** An index is available when it opened under at least one backend. *)
Definition available (e : WebcamTest.env) (i : Z) : bool :=
  WebcamTest.probe_opens e i CAP_ANY || WebcamTest.probe_opens e i CAP_V4L2.

Definition no_device_found : list event :=
  [Print "Error: Could not open any webcam. Tried indices 0-4.";
   Print "Please ensure your webcam is connected and drivers are installed."].

(** ** Concrete runs *)

(** The builtin [int] on plain decimal literals, for concrete runs: an
    optional minus sign and decimal digits. *)
Fixpoint digits (s : string) (acc : Z) : option Z :=
  match s with
  | EmptyString => Some acc
  | String c s' =>
      let d := ord c - ord "0" in
      if (0 <=? d) && (d <=? 9) then digits s' (10 * acc + d) else None
  end.

Definition int_decimal (s : string) : option Z :=
  match s with
  | EmptyString => None
  | String "-" EmptyString => None
  | String "-" s' => Z.opp <$> digits s' 0
  | _ => digits s 0
  end.

(** A 2 x 2 frame. *)
Definition frame22 : image pixel :=
  [[(1, 2, 3); (4, 5, 6)]; [(7, 8, 9); (10, 11, 12)]].

(** A machine with webcams at the indices [cams]; the user types [line];
    the stream opens when [opens]; every read returns [frame22] before
    iteration [ends] and fails from there on; the polled key is [key k]. *)
Definition webcam_env (cams : list Z) (line : string) (opens : bool)
    (ends : nat) (key : nat → Z) : WebcamTest.env :=
  {| WebcamTest.probe_opens := λ i _, bool_decide (i ∈ cams);
     WebcamTest.stdin := Returns line;
     WebcamTest.stream_opens := λ _, opens;
     WebcamTest.cap_read := λ k, Returns (if (k <? ends)%nat then Some frame22 else None);
     WebcamTest.imshow_raises := λ _, None;
     WebcamTest.waitKey := λ k, Returns (key k) |}.

(** No key is pressed before iteration [n], where [q] is pressed. *)
Definition q_at (n : nat) (k : nat) : Z :=
  if (k =? n)%nat then ord "q" else -1.

(** ** The stages of [run_webcam] and the events of a session *)

Definition searching : event := Print "Searching for a working webcam...".

Definition search_trace (e : WebcamTest.env) : list event :=
  flat_map (probe_contract e) [0; 1; 2; 3; 4].

Definition found (e : WebcamTest.env) : list Z :=
  filter (λ i, available e i) [0; 1; 2; 3; 4].

(** What the selection prints and reads before it decides, for a list of
    two or more indices and the typed line [line]. *)
Definition menu (available_indices : list Z) (line : string) : list event :=
  Print (newline +:+ "Found multiple cameras. Please choose:")
    :: map (λ idx, Print ("  " +:+ pretty idx +:+ ": Camera at index " +:+ pretty idx))
         (sorted_list_set available_indices)
    ++ [Input "Enter camera index: " line].

(** The run ended in the selection: the message [msg] is the last thing
    printed, no camera was chosen and no stream was opened. *)
Definition selection_failed (int : string → option Z) (e : WebcamTest.env)
    (fuel : nat) (available_indices : list Z) (msg : string) : Prop :=
  (WebcamTest.selection_logic int e available_indices).2 = Ok None
  ∧ last (WebcamTest.selection_logic int e available_indices).1 = Some (Print msg)
  ∧ WebcamTest.run_webcam int e fuel
    = (searching :: search_trace e
         ++ (WebcamTest.selection_logic int e available_indices).1, Ok tt)
  ∧ count is_stream_open (WebcamTest.run_webcam int e fuel).1 = 0%nat.

Definition cant_receive : event :=
  Print "Error: Can't receive frame (stream end?). Exiting ...".

Definition stopping_webcam (i : Z) : list event :=
  [Print "Stopping webcam stream..."; Release i None; DestroyAllWindows].

(** No event of a streaming loop is of the kind [p]. *)
Definition off_loop (p : event → bool) : Prop :=
  (∀ s, p (Print s) = false) ∧ (∀ b, p (CapRead b) = false)
  ∧ (∀ w m, p (Imshow w m) = false) ∧ (∀ d k, p (WaitKey d k) = false)
  ∧ (∀ d c, p (WaitForFrames d c) = false) ∧ (∀ w, p (NamedWindow w) = false).

(** No event of a streaming loop or of its cleanup is of the kind [p]. *)
Definition off_stream (p : event → bool) : Prop :=
  off_loop p ∧ (∀ i, p (Release i None) = false) ∧ p DestroyAllWindows = false.


(** ** Further concrete runs *)

(** A stand-in colour table for concrete runs. *)
Definition two_tone (v : Z) : pixel := (255 - v, 0, v).

(** A 2 x 2 grid of depth samples. *)
Definition depth22 : image Z := [[0; 8500]; [100; 65535]].

(** A RealSense rig: the user types [line] at the menu; the pipeline
    starts unless [start] says otherwise; [pair k] is the [k]-th aligned
    pair; camera 0 opens when [cam]; reads return [frame22] before iteration
    [ends]; the polled key is [key k]. *)
Definition realsense_env (line : string) (start : option exn)
    (pair : nat → answer (option (image Z) * option (image pixel)))
    (cam : bool) (ends : nat) (key : nat → Z) : RealsenseCameraTest.env :=
  {| RealsenseCameraTest.stdin := Returns line;
     RealsenseCameraTest.pipeline_start := start;
     RealsenseCameraTest.wait_for_frames := pair;
     RealsenseCameraTest.cap_opens := cam;
     RealsenseCameraTest.cap_read :=
       λ k, Returns (if (k <? ends)%nat then Some frame22 else None);
     RealsenseCameraTest.imshow_raises := λ _, None;
     RealsenseCameraTest.waitKey := λ k, Returns (key k) |}.

(** The first pair lacks its depth frame, the later ones are complete. *)
Definition first_pair_incomplete (k : nat)
    : answer (option (image Z) * option (image pixel)) :=
  Returns (if (k =? 0)%nat then (None, Some frame22) else (Some depth22, Some frame22)).

(** The frames stop arriving at once. *)
Definition frames_time_out (k : nat)
    : answer (option (image Z) * option (image pixel)) :=
  Raises (Exception "Frame didn't arrive within 5000").

(** ** Handles, pixels and iterations *)

Global Instance backend_eq_dec : EqDecision backend.
Proof. solve_decision. Defined.

(** The capture handle that is open after the trace [t], when [h] was open
    before it.  [None] when the trace breaks the discipline: it opens a
    capture while one is open, or releases one that is not the open one. *)
Fixpoint handle_after (h : option (Z * option backend)) (t : list event)
    : option (option (Z * option backend)) :=
  match t with
  | [] => Some h
  | VideoCapture i api true :: t' =>
      match h with
      | None => handle_after (Some (i, api)) t'
      | Some _ => None
      end
  | Release i api :: t' =>
      if decide (h = Some (i, api)) then handle_after None t' else None
  | _ :: t' => handle_after h t'
  end.

Definition is_handle_event (ev : event) : bool :=
  match ev with
  | VideoCapture _ _ true => true
  | Release _ _ => true
  | _ => false
  end.

Definition is_probe_open (ev : event) : bool :=
  match ev with VideoCapture _ (Some _) _ => true | _ => false end.

Definition is_capture (ev : event) : bool :=
  match ev with VideoCapture _ _ _ => true | _ => false end.

Definition is_pipeline_start (ev : event) : bool :=
  match ev with PipelineStart => true | _ => false end.


(** What an iteration of a webcam loop adds to the trace when it shows
    [frame] and polls [key]. *)
Definition webcam_shows (frame : image pixel) (key : Z) : list event :=
  [CapRead true; Imshow "Normal Webcam" frame; WaitKey 1 key].

(** The loop gets as far as iteration [k]: the iterations before it all
    ended at the bottom of the body or by [continue]. *)
Definition reaches (body : nat → prog ctl) (k : nat) : Prop :=
  ∀ j, (j < k)%nat → (body j).2 = Ok Continue.

(** What the iterations before iteration [k] added to the trace. *)
Definition earlier (body : nat → prog ctl) (k : nat) : list event :=
  flat_map (λ j, (body j).1) (seq 0 k).

(** What [main] prints before it reads the choice. *)
Definition main_menu : list event :=
  [Print "Please select a camera source:";
   Print "  1: Intel RealSense (Color + Depth)";
   Print "  2: Normal Webcam (Color only)"].

(** A line of the camera menu of webcam-test.py. *)
Definition menu_line (idx : Z) : event :=
  Print ("  " +:+ pretty idx +:+ ": Camera at index " +:+ pretty idx).

(** Every read returns [frame22] and no key is ever pressed. *)
Definition endless_env : WebcamTest.env :=
  {| WebcamTest.probe_opens := λ i _, bool_decide (i = 0);
     WebcamTest.stdin := Raises (Exception "EOF when reading a line");
     WebcamTest.stream_opens := λ _, true;
     WebcamTest.cap_read := λ _, Returns (Some frame22);
     WebcamTest.imshow_raises := λ _, None;
     WebcamTest.waitKey := λ _, Returns (-1) |}.

(** Two frames arrive, then [cap.read()] raises. *)
Definition device_lost_env : WebcamTest.env :=
  {| WebcamTest.probe_opens := λ i _, bool_decide (i = 0);
     WebcamTest.stdin := Returns "";
     WebcamTest.stream_opens := λ _, true;
     WebcamTest.cap_read :=
       λ k, if (k <? 2)%nat then Returns (Some frame22)
            else Raises (Exception "device lost");
     WebcamTest.imshow_raises := λ _, None;
     WebcamTest.waitKey := λ _, Returns (-1) |}.

(** Cameras at 0 and 2, and the line typed cannot be decoded. *)
Definition undecodable_env : WebcamTest.env :=
  {| WebcamTest.probe_opens := λ i _, bool_decide (i ∈ [0; 2]);
     WebcamTest.stdin :=
       Raises (ValueError "'utf-8' codec can't decode byte 0xff in position 0");
     WebcamTest.stream_opens := λ _, true;
     WebcamTest.cap_read := λ _, Returns None;
     WebcamTest.imshow_raises := λ _, None;
     WebcamTest.waitKey := λ _, Returns (-1) |}.

(** Cameras at 0 and 2, and the input ends before a line is typed. *)
Definition eof_env : WebcamTest.env :=
  {| WebcamTest.probe_opens := λ i _, bool_decide (i ∈ [0; 2]);
     WebcamTest.stdin := Raises (Exception "EOF when reading a line");
     WebcamTest.stream_opens := λ _, true;
     WebcamTest.cap_read := λ _, Returns None;
     WebcamTest.imshow_raises := λ _, None;
     WebcamTest.waitKey := λ _, Returns (-1) |}.

(** The first [n] pairs lack their colour frame, the later ones are
    complete. *)
Definition drops_pairs (n : nat) (k : nat)
    : option (image Z) * option (image pixel) :=
  if (k <? n)%nat then (Some depth22, None) else (Some depth22, Some frame22).

(** Splits a membership in an explicit list into its cases. *)
Ltac elem_cases H :=
  repeat first
    [ apply elem_of_nil in H; destruct H
    | apply elem_of_cons in H as [H|H]; [try discriminate H|] ].

(** ** Traces of composed programs *)

Lemma bind_emit {B} ev (k : unit → prog B) :
  bind (emit ev) k = (ev :: (k tt).1, (k tt).2).
Proof. unfold emit; simpl. by destruct (k tt). Qed.

Lemma bind_print {B} s (k : unit → prog B) :
  bind (print s) k = (Print s :: (k tt).1, (k tt).2).
Proof. apply bind_emit. Qed.

Lemma count_app p t1 t2 : count p (t1 ++ t2) = (count p t1 + count p t2)%nat.
Proof. unfold count. by rewrite filter_app, length_app. Qed.

Lemma count_cons p ev t :
  count p (ev :: t) = ((if p ev then 1 else 0) + count p t)%nat.
Proof.
  unfold count. rewrite filter_cons. destruct (p ev); by case_decide.
Qed.

Lemma count_none p t : Forall (λ ev, p ev = false) t → count p t = 0%nat.
Proof.
  induction 1 as [|ev t Hev _ IH]; [done|]. by rewrite count_cons, Hev, IH.
Qed.

Section TraceForall.
Variable P : event → Prop.

Lemma Forall_bind {A B} (m : prog A) (k : A → prog B) :
  Forall P m.1 → (∀ a, Forall P (k a).1) → Forall P (bind m k).1.
Proof.
  destruct m as [t [a|err|]]; simpl; intros Ht Hk; try done.
  specialize (Hk a). destruct (k a); simpl in *. by apply Forall_app.
Qed.

Lemma Forall_call {A} (r : answer A) ev :
  (∀ a, Forall P (ev a)) → Forall P (call r ev).1.
Proof. destruct r; simpl; auto. Qed.

Lemma Forall_try_finally {A} (body : prog A) handler :
  Forall P body.1 → Forall P handler.1 → Forall P (try_finally body handler).1.
Proof.
  destruct body as [t [a|err|]], handler as [t' [[]|err'|]]; simpl;
    intros; try done; by apply Forall_app.
Qed.

Lemma Forall_try_except {A} (body handler : prog A) :
  Forall P body.1 → Forall P handler.1 →
  Forall P (try_except_ValueError body handler).1.
Proof.
  destruct body as [t [a|[msg|msg|]|]], handler as [t' r']; simpl;
    intros; try done; by apply Forall_app.
Qed.

Lemma Forall_while_true body fuel k :
  (∀ j, Forall P (body j).1) → Forall P (while_true body fuel k).1.
Proof.
  intros Hbody. revert k. induction fuel as [|fuel IH]; intros k; simpl.
  - constructor.
  - apply Forall_bind; [done|]. intros [|]; [apply IH|constructor].
Qed.

Lemma Forall_for_in {S A} (xs : list A) (body : S → A → prog S) s :
  (∀ s x, Forall P (body s x).1) → Forall P (for_in xs body s).1.
Proof.
  intros Hbody. revert s. induction xs as [|x xs IH]; intros s; simpl.
  - constructor.
  - apply Forall_bind; [done|]. intros s'. apply IH.
Qed.
End TraceForall.

(** ** The search loop of webcam-test.py *)

Lemma range_5 : seqZ 0 5 = [0; 1; 2; 3; 4].
Proof. reflexivity. Qed.

Lemma search_index_eq e acc i :
  WebcamTest.search_index e acc i
  = (probe_contract e i, Ok (if available e i then acc ++ [i] else acc)).
Proof.
  unfold WebcamTest.search_index, probe_contract, available.
  destruct (WebcamTest.probe_opens e i CAP_ANY); [reflexivity|].
  destruct (WebcamTest.probe_opens e i CAP_V4L2); reflexivity.
Qed.

Lemma for_in_search_index e l acc :
  for_in l (WebcamTest.search_index e) acc
  = (flat_map (probe_contract e) l, Ok (acc ++ filter (λ i, available e i) l)).
Proof.
  revert acc. induction l as [|i l IH]; intros acc; simpl.
  - by rewrite app_nil_r.
  - rewrite search_index_eq; simpl. rewrite IH; simpl. f_equal. f_equal.
    rewrite filter_cons. destruct (available e i); simpl.
    + by rewrite <- app_assoc.
    + done.
Qed.

Lemma search_eq e :
  WebcamTest.search e
  = (flat_map (probe_contract e) [0; 1; 2; 3; 4],
     Ok (filter (λ i, available e i) [0; 1; 2; 3; 4])).
Proof. unfold WebcamTest.search. rewrite range_5. apply for_in_search_index. Qed.

Lemma StronglySorted_filter {A} (R : relation A) (P : A → Prop)
    `{∀ x, Decision (P x)} l :
  StronglySorted R l → StronglySorted R (filter P l).
Proof.
  induction 1 as [|x l Hl IH Hx]; [constructor|].
  rewrite filter_cons. case_decide; [|done].
  constructor; [done|]. rewrite Forall_forall in Hx |- *.
  intros y [_ Hy]%list_elem_of_filter. by apply Hx.
Qed.

Lemma StronglySorted_lt_NoDup (l : list Z) : StronglySorted Z.lt l → NoDup l.
Proof.
  induction 1 as [|x l Hl IH Hx]; constructor; [|done].
  intros Hin. rewrite Forall_forall in Hx.
  apply Hx in Hin. lia.
Qed.

Lemma sorted_list_set_perm (l : list Z) x : x ∈ sorted_list_set l ↔ x ∈ l.
Proof.
  unfold sorted_list_set. rewrite merge_sort_Permutation.
  rewrite elem_of_elements. apply elem_of_list_to_set.
Qed.

Lemma sorted_list_set_id (l : list Z) :
  StronglySorted Z.lt l → sorted_list_set l = l.
Proof.
  intros Hl. unfold sorted_list_set.
  apply (Sorted_unique Z.le).
  - apply Sorted_merge_sort; apply _.
  - apply StronglySorted_Sorted.
    induction Hl as [|x l' Hl' IH Hx]; constructor; [done|].
    eapply Forall_impl; [exact Hx|]. intros; simpl in *; lia.
  - rewrite merge_sort_Permutation.
    apply elements_list_to_set. by apply StronglySorted_lt_NoDup.
Qed.

Lemma range_5_sorted : StronglySorted Z.lt [0; 1; 2; 3; 4].
Proof. repeat (constructor; [|repeat constructor; lia]). constructor. Qed.

(** C10: the list of available indices that the search loop builds is
    strictly ascending and holds no index twice, and so
    [sorted(list(set(available_indices)))] is that same list. *)
Theorem available_indices_strictly_ascending e :
  ∃ available_indices,
    (WebcamTest.search e).2 = Ok available_indices
    ∧ StronglySorted Z.lt available_indices
    ∧ NoDup available_indices
    ∧ sorted_list_set available_indices = available_indices.
Proof.
  rewrite search_eq; simpl. eexists; split; [reflexivity|].
  assert (StronglySorted Z.lt (filter (λ i, available e i) [0; 1; 2; 3; 4]))
    as Hs by apply StronglySorted_filter, range_5_sorted.
  auto using StronglySorted_lt_NoDup, sorted_list_set_id.
Qed.

(** [run_webcam] as its three stages: search, selection, stream. *)
Lemma run_webcam_stages int e fuel :
  WebcamTest.run_webcam int e fuel
  = match WebcamTest.selection_logic int e (found e) with
    | (t, Ok (Some i)) =>
        (searching :: search_trace e ++ t ++ (WebcamTest.start_stream e fuel i).1,
         (WebcamTest.start_stream e fuel i).2)
    | (t, Ok None) => (searching :: search_trace e ++ t, Ok tt)
    | (t, Raise err) => (searching :: search_trace e ++ t, Raise err)
    | (t, Streaming) => (searching :: search_trace e ++ t, Streaming)
    end.
Proof.
  unfold WebcamTest.run_webcam. rewrite bind_print, search_eq. simpl.
  fold (found e) (search_trace e).
  destruct (WebcamTest.selection_logic int e (found e)) as [t [[i|]|err|]];
    simpl; try reflexivity.
  - by destruct (WebcamTest.start_stream e fuel i).
  - unfold searching, search_trace; simpl. by rewrite !app_nil_r.
Qed.

Lemma probe_contract_no p e i :
  (∀ j b o, p (VideoCapture j (Some b) o) = false) →
  (∀ s, p (Print s) = false) →
  (∀ j b, p (Release j (Some b)) = false) →
  Forall (λ ev, p ev = false) (probe_contract e i).
Proof.
  intros Hv Hp Hr. unfold probe_contract.
  repeat case_match; repeat constructor; auto.
Qed.

Lemma search_trace_no p e :
  (∀ j b o, p (VideoCapture j (Some b) o) = false) →
  (∀ s, p (Print s) = false) →
  (∀ j b, p (Release j (Some b)) = false) →
  Forall (λ ev, p ev = false) (search_trace e).
Proof.
  intros Hv Hp Hr. unfold search_trace; simpl.
  repeat (apply Forall_app; split); try constructor;
    by apply probe_contract_no.
Qed.

(** C2: the search tries the indices 0 to 4 in order, each with [CAP_ANY]
    first and with [CAP_V4L2] only after [CAP_ANY] failed; an index that
    opened is recorded and its probe handle released at once.  When no
    index is available the run prints the no-camera error and ends: it
    reads no input and opens no stream. *)
Theorem search_follows_probe_contract int e fuel :
  WebcamTest.search e
  = (flat_map (probe_contract e) [0; 1; 2; 3; 4],
     Ok (filter (λ i, available e i) [0; 1; 2; 3; 4]))
  ∧ (filter (λ i, available e i) [0; 1; 2; 3; 4] = [] →
     WebcamTest.run_webcam int e fuel
     = (searching :: flat_map (probe_contract e) [0; 1; 2; 3; 4] ++ no_device_found,
        Ok tt)
     ∧ count is_input (WebcamTest.run_webcam int e fuel).1 = 0%nat
     ∧ count is_stream_open (WebcamTest.run_webcam int e fuel).1 = 0%nat).
Proof.
  split; [apply search_eq|]. intros Hnone.
  assert (WebcamTest.run_webcam int e fuel
          = (searching :: search_trace e ++ no_device_found, Ok tt)) as Hrun.
  { rewrite run_webcam_stages. unfold found. rewrite Hnone. reflexivity. }
  rewrite Hrun; simpl. split; [reflexivity|].
  split; rewrite count_cons, count_app; simpl;
    rewrite count_none; try reflexivity; by apply search_trace_no.
Qed.

Lemma search_follows_probe_contract_witness :
  WebcamTest.run_webcam int_decimal (webcam_env [] "" false 0 (q_at 0)) 3
  = (searching
       :: flat_map (probe_contract (webcam_env [] "" false 0 (q_at 0))) [0; 1; 2; 3; 4]
       ++ no_device_found,
     Ok tt).
Proof.
  apply (search_follows_probe_contract int_decimal
           (webcam_env [] "" false 0 (q_at 0)) 3).
  reflexivity.
Defined.

(** ** The selection and the stream of webcam-test.py *)

Lemma loop_body_off p e k :
  off_loop p → Forall (λ ev, p ev = false) (WebcamTest.loop_body e k).1.
Proof.
  intros (Hp & Hr & Hi & Hw & _). unfold WebcamTest.loop_body.
  apply Forall_bind; [apply Forall_call; repeat constructor; auto|].
  intros [frame|]; [|repeat constructor; auto].
  destruct (WebcamTest.imshow_raises e k); [constructor|].
  rewrite bind_emit; simpl. constructor; [auto|].
  apply Forall_bind; [apply Forall_call; repeat constructor; auto|].
  intros key. destruct (quit_key key); constructor.
Qed.

Lemma start_stream_trace p e fuel i :
  off_stream p →
  ∃ rest,
    (WebcamTest.start_stream e fuel i).1
    = Print ("Starting webcam stream from index " +:+ pretty i +:+ "...")
        :: VideoCapture i None (WebcamTest.stream_opens e i) :: rest
    ∧ Forall (λ ev, p ev = false) rest.
Proof.
  intros (Hloop & Hr & Hd). unfold WebcamTest.start_stream.
  destruct (WebcamTest.stream_opens e i); simpl.
  - pose proof (Forall_try_finally (λ ev, p ev = false)
        (while_true (WebcamTest.loop_body e) fuel 0)
        ([Print "Stopping webcam stream..."; Release i None; DestroyAllWindows],
         Ok ())) as Htf.
    destruct (try_finally _ _) as [t r]; simpl in *.
    eexists; split; [reflexivity|]. apply Htf.
    + apply Forall_while_true. intros j. by apply loop_body_off.
    + destruct Hloop as (Hp & _). repeat constructor; auto.
  - eexists; split; [reflexivity|].
    destruct Hloop as (Hp & _). repeat constructor; auto.
Qed.

Lemma off_stream_input : off_stream is_input.
Proof. by repeat split. Qed.

Lemma off_stream_open : off_stream is_stream_open.
Proof. by repeat split. Qed.

(** C8: when the search found the single index [i], the selection returns
    [i] with no event at all (nothing is printed, nothing is read), the run
    goes straight from the search to the stream on [i], and no [input] call
    occurs anywhere in the run. *)
Theorem sole_camera_selected_without_input int e fuel i :
  (WebcamTest.search e).2 = Ok [i] →
  WebcamTest.selection_logic int e [i] = ([], Ok (Some i))
  ∧ WebcamTest.run_webcam int e fuel
    = (searching :: search_trace e ++ (WebcamTest.start_stream e fuel i).1,
       (WebcamTest.start_stream e fuel i).2)
  ∧ count is_input (WebcamTest.run_webcam int e fuel).1 = 0%nat.
Proof.
  rewrite search_eq; simpl. intros [= Hfound].
  split; [reflexivity|].
  assert (WebcamTest.run_webcam int e fuel
    = (searching :: search_trace e ++ (WebcamTest.start_stream e fuel i).1,
       (WebcamTest.start_stream e fuel i).2)) as Hrun.
  { rewrite run_webcam_stages. unfold found. by rewrite Hfound. }
  split; [exact Hrun|]. rewrite Hrun; simpl.
  destruct (start_stream_trace is_input e fuel i off_stream_input)
    as (rest & -> & Hrest).
  rewrite count_cons, count_app, !count_cons; simpl.
  rewrite !count_none; [reflexivity|done|]. by apply search_trace_no.
Qed.

Lemma sole_camera_selected_without_input_witness :
  count is_input
    (WebcamTest.run_webcam int_decimal (webcam_env [2] "" true 1 (q_at 0)) 4).1
  = 0%nat.
Proof.
  apply (sole_camera_selected_without_input int_decimal
           (webcam_env [2] "" true 1 (q_at 0)) 4 2).
  reflexivity.
Defined.

Lemma for_in_print {A} (f : A → string) l :
  for_in l (λ _ x, print (f x)) tt = (map (λ x, Print (f x)) l, Ok tt).
Proof.
  induction l as [|x l IH]; [reflexivity|].
  simpl. by rewrite IH.
Qed.

Lemma selection_logic_multi int e a b l line :
  WebcamTest.stdin e = Returns line →
  WebcamTest.selection_logic int e (a :: b :: l)
  = match int line with
    | Some s =>
        if bool_decide (s ∈ a :: b :: l) then (menu (a :: b :: l) line, Ok (Some s))
        else (menu (a :: b :: l) line ++ [Print "Invalid selection. Exiting."], Ok None)
    | None =>
        (menu (a :: b :: l) line
           ++ [Print "Invalid input. Please enter a number. Exiting."], Ok None)
    end.
Proof.
  intros Hline. unfold WebcamTest.selection_logic, menu.
  rewrite bind_print, for_in_print, Hline. simpl.
  destruct (int line) as [s|]; simpl; [|by rewrite <- app_assoc].
  rewrite (bool_decide_ext _ _ (sorted_list_set_perm (a :: b :: l) s)).
  case_bool_decide; simpl; [done|by rewrite <- app_assoc].
Qed.

(** The selection when [input] raises: a [ValueError] is caught by the
    [except] clause, any other exception leaves the function. *)
Lemma selection_logic_input_raises int e a b l err :
  WebcamTest.stdin e = Raises err →
  WebcamTest.selection_logic int e (a :: b :: l)
  = (Print (newline +:+ "Found multiple cameras. Please choose:")
       :: map (λ idx, Print ("  " +:+ pretty idx +:+ ": Camera at index " +:+ pretty idx))
            (sorted_list_set (a :: b :: l))
       ++ (if is_ValueError err
           then [Print "Invalid input. Please enter a number. Exiting."]
           else []),
     if is_ValueError err then Ok None else Raise err).
Proof.
  intros Hline. unfold WebcamTest.selection_logic.
  rewrite bind_print, for_in_print, Hline. by destruct err.
Qed.

Lemma menu_no_stream_open l line :
  Forall (λ ev, is_stream_open ev = false) (menu l line).
Proof.
  unfold menu. constructor; [done|]. apply Forall_app; split.
  - apply Forall_fmap, Forall_true. done.
  - by repeat constructor.
Qed.

Lemma selection_fails int e fuel msg :
  WebcamTest.selection_logic int e (found e)
  = (menu (found e) (default "" (match WebcamTest.stdin e with Returns s => Some s | _ => None end))
       ++ [Print msg], Ok None) →
  selection_failed int e fuel (found e) msg.
Proof.
  intros Hsel. unfold selection_failed.
  rewrite run_webcam_stages, Hsel; cbn [fst snd].
  split; [done|]. split; [by rewrite last_snoc|]. split; [done|].
  rewrite count_cons, !count_app; cbn [searching is_stream_open].
  rewrite !count_none; try done.
  - by repeat constructor.
  - apply menu_no_stream_open.
  - by apply search_trace_no.
Qed.

(** C3: the search found two or more indices and the user typed [line].
    When [int(line)] is an integer [s] among the indices found, the
    selection returns [s].  When [line] is no integer, or an integer that
    is not among them, the selection prints its invalid-input or
    invalid-selection message and the run ends there, with no stream
    opened. *)
Theorem selection_validates_membership int e fuel available_indices line :
  (WebcamTest.search e).2 = Ok available_indices →
  (2 ≤ length available_indices)%nat →
  WebcamTest.stdin e = Returns line →
  (∀ s, int line = Some s → s ∈ available_indices →
        (WebcamTest.selection_logic int e available_indices).2 = Ok (Some s))
  ∧ (int line = None →
     selection_failed int e fuel available_indices
       "Invalid input. Please enter a number. Exiting.")
  ∧ (∀ s, int line = Some s → s ∉ available_indices →
     selection_failed int e fuel available_indices "Invalid selection. Exiting.").
Proof.
  rewrite search_eq; simpl. intros [= <-] Hlen Hline. fold (found e) in *.
  pose proof (selection_logic_multi int e) as Hsel.
  destruct (found e) as [|a [|b l]] eqn:Hfound; simpl in Hlen; try lia.
  specialize (Hsel a b l line Hline).
  split; [|split].
  - intros s Hs Hin. rewrite Hsel, Hs. by rewrite bool_decide_true.
  - intros Hs. rewrite Hs in Hsel. rewrite <- Hfound in *.
    apply selection_fails. by rewrite Hline.
  - intros s Hs Hin. rewrite Hs, bool_decide_false in Hsel by done.
    rewrite <- Hfound in *. apply selection_fails. by rewrite Hline.
Qed.

Lemma selection_validates_membership_witness :
  (WebcamTest.selection_logic int_decimal
     (webcam_env [0; 2] "2" true 5 (q_at 5)) [0; 2]).2 = Ok (Some 2)
  ∧ selection_failed int_decimal (webcam_env [0; 2] "two" true 5 (q_at 5)) 8 [0; 2]
      "Invalid input. Please enter a number. Exiting."
  ∧ selection_failed int_decimal (webcam_env [0; 2] "1" true 5 (q_at 5)) 8 [0; 2]
      "Invalid selection. Exiting.".
Proof.
  split; [|split].
  - apply (selection_validates_membership int_decimal
             (webcam_env [0; 2] "2" true 5 (q_at 5)) 8 [0; 2] "2");
      [reflexivity|simpl; lia|reflexivity|reflexivity|].
    repeat constructor.
  - apply (selection_validates_membership int_decimal
             (webcam_env [0; 2] "two" true 5 (q_at 5)) 8 [0; 2] "two");
      [reflexivity|simpl; lia|reflexivity|reflexivity].
  - apply (selection_validates_membership int_decimal
             (webcam_env [0; 2] "1" true 5 (q_at 5)) 8 [0; 2] "1" eq_refl
             ltac:(simpl; lia) eq_refl) with (s := 1); [reflexivity|].
    rewrite !elem_of_cons, elem_of_nil. lia.
Defined.

Lemma selection_logic_no_stream_open int e l :
  Forall (λ ev, is_stream_open ev = false) (WebcamTest.selection_logic int e l).1.
Proof.
  unfold WebcamTest.selection_logic.
  destruct l as [|a [|b l]]; [by repeat constructor|constructor|].
  apply Forall_bind; [by repeat constructor|]. intros _.
  apply Forall_bind.
  { apply Forall_for_in. intros. by repeat constructor. }
  intros _. apply Forall_try_except; [|by repeat constructor].
  apply Forall_bind; [apply Forall_call; by repeat constructor|].
  intros line. destruct (int line) as [s|]; [|by repeat constructor].
  case_bool_decide; by repeat constructor.
Qed.

Lemma selection_logic_member int e l i :
  (WebcamTest.selection_logic int e l).2 = Ok (Some i) → i ∈ l.
Proof.
  destruct l as [|a [|b l]]; [done|simpl; intros [= ->]; by left|].
  destruct (WebcamTest.stdin e) as [line|e0] eqn:Hline.
  - rewrite (selection_logic_multi int e a b l line Hline).
    destruct (int line) as [s|]; [|done].
    case_bool_decide as Hin; [|done]. by intros [= ->].
  - rewrite (selection_logic_input_raises int e a b l e0 Hline).
    by destruct (is_ValueError e0).
Qed.

(** In webcam-test.py the only camera opened for streaming is the index
    that the selection returned, and that index is one the search found. *)
Lemma stream_opens_the_selected_index int e fuel i o :
  VideoCapture i None o ∈ (WebcamTest.run_webcam int e fuel).1 →
  (WebcamTest.selection_logic int e (found e)).2 = Ok (Some i)
  ∧ i ∈ found e
  ∧ count is_stream_open (WebcamTest.run_webcam int e fuel).1 = 1%nat.
Proof.
  rewrite run_webcam_stages.
  pose proof (selection_logic_no_stream_open int e (found e)) as Hsel.
  pose proof (selection_logic_member int e (found e)) as Hmem.
  pose proof (search_trace_no is_stream_open e
                ltac:(done) ltac:(done) ltac:(done)) as Hsearch.
  assert (∀ t, Forall (λ ev, is_stream_open ev = false) t →
               VideoCapture i None o ∉ t) as Hnot.
  { intros t Ht Hin. rewrite Forall_forall in Ht. by apply Ht in Hin. }
  destruct (WebcamTest.selection_logic int e (found e)) as [t [[j|]|err|]];
    simpl in *.
  2-4: intros [[=]|[Hin|Hin]%elem_of_app]%elem_of_cons; by eapply Hnot in Hin.
  destruct (start_stream_trace is_stream_open e fuel j off_stream_open)
    as (rest & -> & Hrest).
  intros [[=]|[Hin|[Hin|Hin]%elem_of_app]%elem_of_app]%elem_of_cons;
    try (by eapply Hnot in Hin).
  apply elem_of_cons in Hin as [[=]|[[= -> _]|Hin]%elem_of_cons];
    [|by eapply Hnot in Hin].
  split; [done|]. split; [by apply Hmem|].
  rewrite count_cons, !count_app, !count_cons; simpl.
  by rewrite !count_none.
Qed.

(** ** One iteration of the streaming loops *)

Lemma quit_key_iff key :
  quit_key key = true ↔ Z.land key 0xFF = ord "q" ∨ key = 27.
Proof. unfold quit_key. rewrite orb_true_iff, !Z.eqb_eq. done. Qed.

Lemma land_255_small key : 0 ≤ key < 256 → Z.land key 0xFF = key.
Proof.
  intros Hkey. change 0xFF with (Z.ones 8).
  rewrite Z.land_ones by lia. apply Z.mod_small. change (2 ^ 8) with 256. lia.
Qed.

(** ** The composite image *)

Lemma zip_with_app_shape {A} (a b : image A) wa wb :
  Forall (λ row, length row = wa) a →
  Forall (λ row, length row = wb) b →
  Forall (λ row, length row = (wa + wb)%nat) (zip_with app a b).
Proof.
  intros Ha. revert b. induction Ha as [|r a Hr Ha IH]; intros b Hb; simpl.
  - constructor.
  - destruct Hb as [|r' b Hr' Hb]; constructor.
    + rewrite length_app. by rewrite Hr, Hr'.
    + by apply IH.
Qed.

Lemma hstack_shape {A} (a b : image A) h wa wb :
  has_shape h wa a → has_shape h wb b →
  ∃ c, hstack a b = Returns c ∧ has_shape h (wa + wb) c.
Proof.
  intros [Hha Hwa] [Hhb Hwb]. unfold hstack.
  rewrite decide_True by congruence.
  eexists; split; [reflexivity|]. split.
  - rewrite length_zip_with. lia.
  - by apply zip_with_app_shape.
Qed.

Lemma depth_colormap_shape muladd32 COLORMAP_JET depth_image h w :
  has_shape h w depth_image →
  has_shape h w (depth_colormap muladd32 COLORMAP_JET depth_image).
Proof.
  intros [Hh Hw].
  unfold depth_colormap, applyColorMap, convertScaleAbs, has_shape.
  rewrite !length_map. split; [done|].
  rewrite Forall_forall in Hw.
  apply Forall_forall. intros row (r1 & -> & (r0 & -> & Hin)%list_elem_of_fmap)%list_elem_of_fmap.
  rewrite !length_map. by apply Hw.
Qed.

(** C7: two images of the same height [h] and of widths [wc] and [wd] stack
    into an image of height [h] and width [wc + wd]; this holds for the
    colour image and the colorized depth image of an iteration, whose
    composite is the image shown.  The script does not compare the heights
    itself: when they differ, [np.hstack] raises and the iteration ends
    with that exception, nothing shown. *)
Theorem composite_width_is_sum muladd32 COLORMAP_JET (re : RealsenseCameraTest.env)
    (k : nat) (color_image colorized : image pixel) (depth_image : image Z)
    (h wc wd : nat) :
  (has_shape h wc color_image → has_shape h wd colorized →
   ∃ images, hstack color_image colorized = Returns images
             ∧ has_shape h (wc + wd) images)
  ∧ (has_shape h wc color_image → has_shape h wd depth_image →
     RealsenseCameraTest.wait_for_frames re k = Returns (Some depth_image, Some color_image) →
     RealsenseCameraTest.imshow_raises re k = None →
     ∃ images,
       hstack color_image (depth_colormap muladd32 COLORMAP_JET depth_image) = Returns images
       ∧ has_shape h (wc + wd) images
       ∧ Imshow "RealSense Color and Depth" images
           ∈ (RealsenseCameraTest.realsense_body muladd32 COLORMAP_JET re k).1)
  ∧ (length color_image ≠ length depth_image →
     RealsenseCameraTest.wait_for_frames re k = Returns (Some depth_image, Some color_image) →
     ∃ err,
       RealsenseCameraTest.realsense_body muladd32 COLORMAP_JET re k
       = ([WaitForFrames true true], Raise err)).
Proof.
  split; [apply hstack_shape|]. split.
  - intros Hc Hd Hpair Hshow.
    destruct (hstack_shape color_image
                (depth_colormap muladd32 COLORMAP_JET depth_image) h wc wd Hc)
      as (images & Hstack & Hshape); [by apply depth_colormap_shape|].
    exists images. split; [done|]. split; [done|].
    unfold RealsenseCameraTest.realsense_body.
    rewrite Hpair; simpl. rewrite Hstack; simpl. rewrite Hshow; simpl.
    destruct (RealsenseCameraTest.waitKey re k) as [key|]; simpl;
      [destruct (quit_key key); simpl|..]; set_solver.
  - intros Hne Hpair. unfold RealsenseCameraTest.realsense_body.
    rewrite Hpair; simpl. unfold hstack.
    rewrite decide_False; [by eexists|].
    unfold depth_colormap, applyColorMap, convertScaleAbs.
    by rewrite !length_map.
Qed.

(** ** The depth colorizer *)

Section Binary32.
Local Open Scope Q_scope.


Lemma pow2_pos e : 0 < 2 ^ e.
Proof. by apply Qpower_0_lt. Qed.



Lemma ilog2_upper x : 0 < x -> x < 2 ^ (ilog2 x + 1).
Proof.
  intros Hx. unfold ilog2.
  destruct (Qle_bool _ x) eqn:Hb.
  2:{ replace (_ - 1 + 1)%Z with (Z.log2 (Qnum x) - Z.log2 (Zpos (Qden x)))%Z
        by lia.
      apply Qnot_le_lt. intros Hle. apply Qle_bool_iff in Hle. congruence. }
  clear Hb. destruct x as [n d]. simpl Qnum in *. simpl Qden in *.
  assert (0 < n)%Z as Hn.
  { unfold Qlt in Hx; simpl in Hx. lia. }
  pose proof (Z.log2_spec n Hn) as [_ Ha].
  pose proof (Z.log2_spec (Zpos d) ltac:(lia)) as [Hd _].
  pose proof (Z.log2_nonneg n) as Ha0.
  pose proof (Z.log2_nonneg (Zpos d)) as Hd0.
  set (a := Z.log2 n) in *. set (b := Z.log2 (Zpos d)) in *.
  apply (Qmult_lt_r _ _ (2 ^ b)); [apply pow2_pos|].
  rewrite <- Qpower_plus by done.
  replace (a - b + 1 + b)%Z with (Z.succ a) by lia.
  change 2 with (inject_Z 2). rewrite <- !Zpower_Qpower by lia.
  rewrite (Qmake_Qdiv n d).
  assert (inject_Z n < inject_Z (2 ^ Z.succ a)) as H1
    by (rewrite <- Zlt_Qlt; lia).
  assert (inject_Z (2 ^ b) <= inject_Z (Zpos d)) as H2
    by (rewrite <- Zle_Qle; lia).
  assert (0 < inject_Z (2 ^ b)) as H3 by (rewrite <- (Zlt_Qlt 0); lia).
  assert (0 < inject_Z n) as H4 by (rewrite <- (Zlt_Qlt 0); lia).
  set (qn := inject_Z n) in *. set (qd := inject_Z (Zpos d)) in *.
  set (pa := inject_Z (2 ^ Z.succ a)) in *. set (pb := inject_Z (2 ^ b)) in *.
  clearbody qn qd pa pb.
  assert (qn == qn / qd * qd) as Hq by (field; lra).
  assert (0 < qn / qd) as Hpos.
  { apply Qlt_shift_div_l; lra. }
  set (r := qn / qd) in *. clearbody r. nra.
Qed.





End Binary32.









(** ** Leaving the streaming loop *)

Lemma while_true_ok_break body fuel k :
  (while_true body fuel k).2 = Ok tt → ∃ j, (body j).2 = Ok Break.
Proof.
  revert k. induction fuel as [|fuel IH]; intros k; simpl; [done|].
  destruct (body k) as [t [[|]|err|]] eqn:Hbody; simpl; try done.
  - destruct (while_true body fuel (S k)) as [t' r] eqn:Hloop; simpl.
    intros ->. apply (IH (S k)). by rewrite Hloop.
  - intros _. exists k. by rewrite Hbody.
Qed.

(** Once the loop has ended, observing more iterations changes nothing. *)
Lemma while_true_stable body fuel k :
  (while_true body fuel k).2 ≠ Streaming →
  while_true body (S fuel) k = while_true body fuel k.
Proof.
  revert k. induction fuel as [|fuel IH]; intros k; [done|].
  remember (S fuel) as n. simpl. subst n.
  destruct (body k) as [t [[|]|err|]] eqn:Hbody; simpl; rewrite ?Hbody; simpl;
    try done.
  specialize (IH (S k)).
  destruct (while_true body fuel (S k)) as [t' r] eqn:Hloop; simpl in *.
  intros Hr. by rewrite IH.
Qed.

(** The loop ends by the iteration that does not [continue]. *)
Lemma while_true_leaves body n :
  (∀ j, (body j).2 ≠ Streaming) → (body n).2 ≠ Ok Continue →
  ∀ fuel k, (k ≤ n < k + fuel)%nat → (while_true body fuel k).2 ≠ Streaming.
Proof.
  intros Hbody Hn fuel. induction fuel as [|fuel IH]; intros k Hk; [lia|].
  simpl. specialize (Hbody k).
  destruct (body k) as [t [[|]|err|]] eqn:Hk'; simpl in *; try done.
  destruct (decide (k = n)) as [->|Hne]; [by rewrite Hk' in Hn|].
  specialize (IH (S k) ltac:(lia)).
  by destruct (while_true body fuel (S k)).
Qed.

Lemma finally_counts p body fuel handler cleanup :
  handler = (cleanup, Ok tt) →
  (∀ j, Forall (λ ev, p ev = false) (body j).1) →
  (try_finally (while_true body fuel 0) handler).2 ≠ Streaming →
  count p (try_finally (while_true body fuel 0) handler).1 = count p cleanup.
Proof.
  intros -> Hbody.
  pose proof (Forall_while_true _ body fuel 0%nat Hbody) as Hloop.
  destruct (while_true body fuel 0) as [t [[]|err|]]; simpl in *; try done;
    intros _; by rewrite count_app, count_none.
Qed.

Lemma webcam_body_off p re k :
  off_loop p → Forall (λ ev, p ev = false) (RealsenseCameraTest.webcam_body re k).1.
Proof.
  intros (Hp & Hr & Hi & Hw & _). unfold RealsenseCameraTest.webcam_body.
  apply Forall_bind; [apply Forall_call; repeat constructor; auto|].
  intros [frame|]; [|repeat constructor; auto].
  destruct (RealsenseCameraTest.imshow_raises re k); [constructor|].
  rewrite bind_emit; simpl. constructor; [auto|].
  apply Forall_bind; [apply Forall_call; repeat constructor; auto|].
  intros key. destruct (quit_key key); constructor.
Qed.

Lemma realsense_body_off muladd32 COLORMAP_JET p re k :
  off_loop p →
  Forall (λ ev, p ev = false)
    (RealsenseCameraTest.realsense_body muladd32 COLORMAP_JET re k).1.
Proof.
  intros (Hp & Hr & Hi & Hw & Hf & Hn).
  unfold RealsenseCameraTest.realsense_body.
  apply Forall_bind; [apply Forall_call; repeat constructor; auto|].
  intros [[d|] [c|]]; try constructor.
  apply Forall_bind; [apply Forall_call; constructor|]. intros images.
  apply Forall_bind; [repeat constructor; auto|]. intros _.
  destruct (RealsenseCameraTest.imshow_raises re k); [constructor|].
  apply Forall_bind; [repeat constructor; auto|]. intros _.
  apply Forall_bind; [apply Forall_call; repeat constructor; auto|].
  intros key. destruct (quit_key key); constructor.
Qed.

Lemma realsense_body_break muladd32 COLORMAP_JET re k :
  (RealsenseCameraTest.realsense_body muladd32 COLORMAP_JET re k).2 = Ok Break →
  ∃ key, RealsenseCameraTest.waitKey re k = Returns key ∧ quit_key key = true.
Proof.
  unfold RealsenseCameraTest.realsense_body.
  destruct (RealsenseCameraTest.wait_for_frames re k) as [[[d|] [c|]]|];
    simpl; try done.
  destruct (hstack c _) as [images|]; simpl; [|done].
  destruct (RealsenseCameraTest.imshow_raises re k); simpl; [done|].
  destruct (RealsenseCameraTest.waitKey re k) as [key|]; simpl; [|done].
  destruct (quit_key key) eqn:Hq; simpl; [eauto|done].
Qed.

Lemma off_loop_release : off_loop is_stream_release.
Proof. by repeat split. Qed.

Lemma off_loop_destroy : off_loop is_destroy.
Proof. by repeat split. Qed.

Lemma off_loop_stop : off_loop is_pipeline_stop.
Proof. by repeat split. Qed.

Lemma start_stream_opened e fuel i :
  WebcamTest.stream_opens e i = true →
  WebcamTest.start_stream e fuel i
  = (Print ("Starting webcam stream from index " +:+ pretty i +:+ "...")
       :: VideoCapture i None true
       :: (try_finally (while_true (WebcamTest.loop_body e) fuel 0)
             (stopping_webcam i, Ok tt)).1,
     (try_finally (while_true (WebcamTest.loop_body e) fuel 0)
        (stopping_webcam i, Ok tt)).2).
Proof.
  intros Hopen. unfold WebcamTest.start_stream. rewrite Hopen; simpl.
  by destruct (try_finally _ _).
Qed.

Lemma run_webcam_opened re fuel :
  RealsenseCameraTest.cap_opens re = true →
  RealsenseCameraTest.run_webcam re fuel
  = (VideoCapture 0 None true
       :: (try_finally (while_true (RealsenseCameraTest.webcam_body re) fuel 0)
             (stopping_webcam 0, Ok tt)).1,
     (try_finally (while_true (RealsenseCameraTest.webcam_body re) fuel 0)
        (stopping_webcam 0, Ok tt)).2).
Proof.
  intros Hopen. unfold RealsenseCameraTest.run_webcam. rewrite Hopen; simpl.
  by destruct (try_finally _ _).
Qed.

(** [run_realsense] after a pipeline that started, by the way its loop
    stands. *)
Lemma run_realsense_started muladd32 COLORMAP_JET re fuel :
  RealsenseCameraTest.pipeline_start re = None →
  RealsenseCameraTest.run_realsense muladd32 COLORMAP_JET re fuel
  = match while_true (RealsenseCameraTest.realsense_body muladd32 COLORMAP_JET re) fuel 0 with
    | (t, Ok _) =>
        (Print "Starting RealSense pipeline..." :: PipelineStart :: t
           ++ [Print "Stopping RealSense pipeline..."; PipelineStop; DestroyAllWindows],
         Ok tt)
    | (t, Raise err) =>
        (Print "Starting RealSense pipeline..." :: PipelineStart :: t
           ++ [Print "Stopping RealSense pipeline..."],
         Raise err)
    | (t, Streaming) =>
        (Print "Starting RealSense pipeline..." :: PipelineStart :: t, Streaming)
    end.
Proof.
  intros Hstart. unfold RealsenseCameraTest.run_realsense. rewrite Hstart.
  destruct (while_true _ fuel 0) as [t [[]|err|]]; simpl; try done.
  by rewrite <- app_assoc.
Qed.

(** C1, as the code has it: a session whose open succeeded releases its
    device and destroys the windows exactly once.  In both [run_webcam]s
    this holds however the loop ended (quit key, failed read, or an
    exception raised in the loop); in [run_realsense] it holds when the
    loop ended by the quit key, which is the only way [run_realsense]
    returns after its pipeline started.  A session whose open failed ends
    without any release. *)
Theorem opened_session_released_once muladd32 COLORMAP_JET
    (we : WebcamTest.env) (re : RealsenseCameraTest.env) (fuel : nat) (i : Z) :
  (WebcamTest.stream_opens we i = true →
   (WebcamTest.start_stream we fuel i).2 ≠ Streaming →
   count is_stream_release (WebcamTest.start_stream we fuel i).1 = 1%nat
   ∧ count is_destroy (WebcamTest.start_stream we fuel i).1 = 1%nat)
  ∧ (WebcamTest.stream_opens we i = false →
     (WebcamTest.start_stream we fuel i).2 = Ok tt
     ∧ count is_stream_release (WebcamTest.start_stream we fuel i).1 = 0%nat
     ∧ count is_destroy (WebcamTest.start_stream we fuel i).1 = 0%nat)
  ∧ (RealsenseCameraTest.cap_opens re = true →
     (RealsenseCameraTest.run_webcam re fuel).2 ≠ Streaming →
     count is_stream_release (RealsenseCameraTest.run_webcam re fuel).1 = 1%nat
     ∧ count is_destroy (RealsenseCameraTest.run_webcam re fuel).1 = 1%nat)
  ∧ (RealsenseCameraTest.cap_opens re = false →
     (RealsenseCameraTest.run_webcam re fuel).2 = Ok tt
     ∧ count is_stream_release (RealsenseCameraTest.run_webcam re fuel).1 = 0%nat
     ∧ count is_destroy (RealsenseCameraTest.run_webcam re fuel).1 = 0%nat)
  ∧ (RealsenseCameraTest.pipeline_start re = None →
     (RealsenseCameraTest.run_realsense muladd32 COLORMAP_JET re fuel).2 = Ok tt →
     (∃ k key, RealsenseCameraTest.waitKey re k = Returns key ∧ quit_key key = true)
     ∧ count is_pipeline_stop
         (RealsenseCameraTest.run_realsense muladd32 COLORMAP_JET re fuel).1 = 1%nat
     ∧ count is_destroy
         (RealsenseCameraTest.run_realsense muladd32 COLORMAP_JET re fuel).1 = 1%nat)
  ∧ (∀ err, RealsenseCameraTest.pipeline_start re = Some err →
     (RealsenseCameraTest.run_realsense muladd32 COLORMAP_JET re fuel).2 ≠ Streaming
     ∧ count is_pipeline_stop
         (RealsenseCameraTest.run_realsense muladd32 COLORMAP_JET re fuel).1 = 0%nat
     ∧ count is_destroy
         (RealsenseCameraTest.run_realsense muladd32 COLORMAP_JET re fuel).1 = 0%nat).
Proof.
  split; [|split; [|split; [|split; [|split]]]].
  - intros Hopen. rewrite (start_stream_opened we fuel i Hopen); cbn [fst snd].
    intros Hend. rewrite !count_cons; cbn [is_stream_release is_destroy].
    rewrite !(finally_counts _ _ _ _ (stopping_webcam i) eq_refl); try done;
      intros j; apply loop_body_off;
      [apply off_loop_destroy|apply off_loop_release].
  - intros Hopen. unfold WebcamTest.start_stream. rewrite Hopen. done.
  - intros Hopen. rewrite (run_webcam_opened re fuel Hopen); cbn [fst snd].
    intros Hend. rewrite !count_cons; cbn [is_stream_release is_destroy].
    rewrite !(finally_counts _ _ _ _ (stopping_webcam 0) eq_refl); try done;
      intros j; apply webcam_body_off;
      [apply off_loop_destroy|apply off_loop_release].
  - intros Hopen. unfold RealsenseCameraTest.run_webcam. rewrite Hopen. done.
  - intros Hstart.
    rewrite (run_realsense_started muladd32 COLORMAP_JET re fuel Hstart).
    pose proof (while_true_ok_break
      (RealsenseCameraTest.realsense_body muladd32 COLORMAP_JET re) fuel 0) as Hbreak.
    pose proof (Forall_while_true (λ ev, is_pipeline_stop ev = false)
      (RealsenseCameraTest.realsense_body muladd32 COLORMAP_JET re) fuel 0
      (λ j, realsense_body_off _ _ _ re j off_loop_stop)) as Hstop.
    pose proof (Forall_while_true (λ ev, is_destroy ev = false)
      (RealsenseCameraTest.realsense_body muladd32 COLORMAP_JET re) fuel 0
      (λ j, realsense_body_off _ _ _ re j off_loop_destroy)) as Hdestroy.
    destruct (while_true _ fuel 0) as [t [[]|err|]]; simpl in *; try done.
    intros _. split.
    + destruct (Hbreak eq_refl) as [k Hk].
      apply realsense_body_break in Hk as (key & Hkey & Hq). eauto.
    + rewrite !count_cons, !count_app; simpl.
      by rewrite (count_none _ t Hstop), (count_none _ t Hdestroy).
  - intros err Hstart. unfold RealsenseCameraTest.run_realsense.
    rewrite Hstart. by destruct err.
Qed.

(** A session does leave the loop: by the iteration whose read fails or
    raises, or whose polled key is a quit key, the stream of webcam-test.py
    has ended, whatever number of further iterations is observed. *)
Lemma start_stream_ends e i n fuel :
  (WebcamTest.loop_body e n).2 ≠ Ok Continue → (n < fuel)%nat →
  (WebcamTest.start_stream e fuel i).2 ≠ Streaming.
Proof.
  intros Hn Hfuel. unfold WebcamTest.start_stream.
  destruct (WebcamTest.stream_opens e i); simpl; [|done].
  assert ((while_true (WebcamTest.loop_body e) fuel 0).2 ≠ Streaming) as Hloop.
  { apply (while_true_leaves _ n); [|done|lia].
    intros j. unfold WebcamTest.loop_body.
    destruct (WebcamTest.cap_read e j) as [[frame|]|]; simpl; try done.
    destruct (WebcamTest.imshow_raises e j); simpl; [done|].
    destruct (WebcamTest.waitKey e j) as [key|]; simpl; [|done].
    by destruct (quit_key key). }
  by destruct (while_true _ fuel 0) as [t [[]|err|]].
Qed.

Lemma opened_session_released_once_witness :
  count is_stream_release
    (WebcamTest.start_stream (webcam_env [2] "" true 1 (q_at 5)) 3 2).1 = 1%nat
  ∧ count is_destroy
      (WebcamTest.start_stream (webcam_env [2] "" true 1 (q_at 5)) 3 2).1 = 1%nat.
Proof.
  apply (proj1 (opened_session_released_once muladd32_ieee two_tone
                  (webcam_env [2] "" true 1 (q_at 5))
                  (realsense_env "1" None first_pair_incomplete true 1 (q_at 1))
                  3 2)).
  - reflexivity.
  - vm_compute. discriminate.
Defined.

(** C1 fails as stated when the open fails: the session of webcam-test.py
    ends without [cap.release()] or [destroyAllWindows()], and that of
    [run_realsense] without [pipeline.stop()] or [destroyAllWindows()]. *)
Lemma failed_open_is_not_released :
  WebcamTest.start_stream (webcam_env [0] "" false 0 (q_at 0)) 3 0
  = ([Print "Starting webcam stream from index 0...";
      VideoCapture 0 None false;
      Print "Error: Failed to open camera at index 0 (it may be in use)."],
     Ok tt)
  ∧ count is_stream_release
      (WebcamTest.start_stream (webcam_env [0] "" false 0 (q_at 0)) 3 0).1 = 0%nat
  ∧ count is_destroy
      (WebcamTest.start_stream (webcam_env [0] "" false 0 (q_at 0)) 3 0).1 = 0%nat
  ∧ RealsenseCameraTest.run_realsense muladd32_ieee two_tone
      (realsense_env "1" (Some (Exception "No device connected"))
         first_pair_incomplete false 0 (q_at 0)) 3
    = ([Print "Starting RealSense pipeline...";
        Print "Failed to start RealSense pipeline: No device connected";
        Print "Is the RealSense camera plugged in?"],
       Ok tt).
Proof. repeat split. Qed.

(** In [run_realsense] an exception raised in the loop runs the [finally]
    block, which only prints; [pipeline.stop()] and [destroyAllWindows()]
    stand after the [try] statement and are not reached. *)
Lemma realsense_exception_skips_pipeline_stop :
  RealsenseCameraTest.run_realsense muladd32_ieee two_tone
    (realsense_env "1" None frames_time_out false 0 (q_at 0)) 3
  = ([Print "Starting RealSense pipeline..."; PipelineStart;
      Print "Stopping RealSense pipeline..."],
     Raise (Exception "Frame didn't arrive within 5000")).
Proof. reflexivity. Qed.

(** C4 at its failing input: in realsense-camera-test.py the webcam flow
    opens index 0 at once, with no search and no selection before it. *)
Theorem realsense_script_webcam_opens_index_0 :
  RealsenseCameraTest.main muladd32_ieee two_tone
    (realsense_env "2" None frames_time_out false 0 (q_at 0)) 3
  = ([Print "Please select a camera source:";
      Print "  1: Intel RealSense (Color + Depth)";
      Print "  2: Normal Webcam (Color only)";
      Input "Enter choice (1 or 2): " "2";
      VideoCapture 0 None false;
      Print "Error: Failed to open camera at index (it may be in use)."],
     Ok tt).
Proof. reflexivity. Qed.

(** Whatever the machine, [run_webcam] of realsense-camera-test.py begins by
    opening index 0. *)
Lemma realsense_run_webcam_first_event re fuel :
  ∃ rest,
    (RealsenseCameraTest.run_webcam re fuel).1
    = VideoCapture 0 None (RealsenseCameraTest.cap_opens re) :: rest.
Proof.
  unfold RealsenseCameraTest.run_webcam.
  destruct (RealsenseCameraTest.cap_opens re); simpl; [|by eexists].
  destruct (try_finally _ _); simpl. by eexists.
Qed.

(** The end-to-end scenario of the specification: cameras 0 and 2, the
    user enters 2, five frames are shown, [q] is polled at the sixth. *)
Example end_to_end_scenario :
  let run := WebcamTest.run_webcam int_decimal
               (webcam_env [0; 2] "2" true 9 (q_at 5)) 8 in
  run.2 = Ok tt
  ∧ filter (λ ev, is_stream_open ev = true) run.1 = [VideoCapture 2 None true]
  ∧ count is_imshow run.1 = 6%nat
  ∧ last run.1 = Some DestroyAllWindows
  ∧ count is_stream_release run.1 = 1%nat.
Proof. repeat split. Qed.

(** ** The theorems at concrete runs *)

(** A camera that only the V4L2 backend opens is found on the second
    attempt. *)
Example v4l2_only_camera :
  WebcamTest.search_index
    {| WebcamTest.probe_opens :=
         λ i api, match api with CAP_ANY => false | CAP_V4L2 => i =? 1 end;
       WebcamTest.stdin := Raises (Exception "EOF when reading a line");
       WebcamTest.stream_opens := λ _, false;
       WebcamTest.cap_read := λ _, Returns None;
       WebcamTest.imshow_raises := λ _, None;
       WebcamTest.waitKey := λ _, Returns (-1) |} [0] 1
  = ([VideoCapture 1 (Some CAP_ANY) false;
      VideoCapture 1 (Some CAP_V4L2) true;
      Print "Success: Found a working camera at index 1 (using V4L2).";
      Release 1 (Some CAP_V4L2)],
     Ok [0; 1]).
Proof. reflexivity. Qed.

(** In single precision the scaled depth reaches 255 from the sample 8484
    on, below the 8500 of the exact product. *)
Example scaled_depth_samples :
  map (convertScaleAbs1 muladd32_ieee (3 # 100))
    [0; 16; 17; 8483; 8484; 8499; 8500; 65535]
  = [0; 0; 1; 254; 255; 255; 255; 255].
Proof. vm_compute. reflexivity. Qed.

Lemma composite_width_is_sum_witness :
  ∃ images,
    hstack frame22 (depth_colormap muladd32_ieee two_tone depth22) = Returns images
    ∧ has_shape 2 (2 + 2) images
    ∧ Imshow "RealSense Color and Depth" images
        ∈ (RealsenseCameraTest.realsense_body muladd32_ieee two_tone
             (realsense_env "1" None first_pair_incomplete true 0 (q_at 1)) 1).1.
Proof.
  apply (proj1 (proj2 (composite_width_is_sum muladd32_ieee two_tone
                  (realsense_env "1" None first_pair_incomplete true 0 (q_at 1))
                  1 frame22 frame22 depth22 2 2 2))).
  - split; [reflexivity|]. repeat constructor.
  - split; [reflexivity|]. repeat constructor.
  - reflexivity.
  - reflexivity.
Defined.


(** ** Whole runs of the loops *)

(** A loop whose iterations [k0 .. k0+m-1] continue and whose iteration
    [k0+m] breaks or raises has the traces of these iterations, in order,
    as its trace. *)
Lemma while_true_trace body (t : nat → list event) m :
  ∀ k0 fuel tn r,
    (∀ j, (k0 ≤ j < k0 + m)%nat → body j = (t j, Ok Continue)) →
    body (k0 + m)%nat = (tn, r) → r ≠ Ok Continue → r ≠ Streaming →
    (m < fuel)%nat →
    while_true body fuel k0
    = (flat_map t (seq k0 m) ++ tn,
       match r with Raise err => Raise err | _ => Ok tt end).
Proof.
  induction m as [|m IH]; intros k0 fuel tn r Hcont Hlast Hr Hs Hfuel.
  - destruct fuel as [|fuel]; [lia|]. simpl.
    rewrite Nat.add_0_r in Hlast. rewrite Hlast.
    destruct r as [[|]|err|]; simpl; try done; by rewrite app_nil_r.
  - destruct fuel as [|fuel]; [lia|]. simpl.
    rewrite (Hcont k0) by lia. simpl.
    rewrite (IH (S k0) fuel tn r); try done; try lia.
    + simpl. by rewrite <- app_assoc.
    + intros j Hj. apply Hcont. lia.
    + by replace (S k0 + m)%nat with (k0 + S m)%nat by lia.
Qed.

(** A loop all of whose iterations continue is still running after any
    number of them. *)
Lemma while_true_runs_on body (t : nat → list event) fuel :
  ∀ k0, (∀ j, body j = (t j, Ok Continue)) →
        while_true body fuel k0 = (flat_map t (seq k0 fuel), Streaming).
Proof.
  induction fuel as [|fuel IH]; intros k0 Hcont; [done|].
  simpl. rewrite Hcont. simpl. by rewrite (IH (S k0) Hcont).
Qed.

Lemma loop_body_shows e k frame key :
  WebcamTest.cap_read e k = Returns (Some frame) →
  WebcamTest.imshow_raises e k = None →
  WebcamTest.waitKey e k = Returns key →
  WebcamTest.loop_body e k
  = (webcam_shows frame key, Ok (if quit_key key then Break else Continue)).
Proof.
  intros Hread Hshow Hkey. unfold WebcamTest.loop_body.
  rewrite Hread; simpl. rewrite Hshow, Hkey; simpl. by destruct (quit_key key).
Qed.

(** X1: The stream of webcam-test.py, frame by frame: while the reads succeed
    and no quit key is polled, every frame read is shown once, in order; at
    the first read that fails the error is printed, the capture is
    released and the windows are destroyed, and [run_webcam] returns. *)
Theorem webcam_stream_shows_frames_until_read_fails e i fuel n
    (frame : nat → image pixel) (key : nat → Z) :
  WebcamTest.stream_opens e i = true →
  (∀ k, (k < n)%nat →
        WebcamTest.cap_read e k = Returns (Some (frame k))
        ∧ WebcamTest.imshow_raises e k = None
        ∧ WebcamTest.waitKey e k = Returns (key k)
        ∧ quit_key (key k) = false) →
  WebcamTest.cap_read e n = Returns None →
  (n < fuel)%nat →
  WebcamTest.start_stream e fuel i
  = (Print ("Starting webcam stream from index " +:+ pretty i +:+ "...")
       :: VideoCapture i None true
       :: flat_map (λ k, webcam_shows (frame k) (key k)) (seq 0 n)
       ++ [CapRead false; cant_receive] ++ stopping_webcam i,
     Ok tt).
Proof.
  intros Hopen Hgood Hend Hfuel.
  rewrite (start_stream_opened e fuel i Hopen).
  rewrite (while_true_trace (WebcamTest.loop_body e)
             (λ k, webcam_shows (frame k) (key k)) n 0 fuel
             [CapRead false; cant_receive] (Ok Break)); try done.
  - simpl. by rewrite <- app_assoc.
  - intros j Hj. destruct (Hgood j ltac:(lia)) as (Hread & Hshow & Hkey & Hq).
    rewrite (loop_body_shows e j _ _ Hread Hshow Hkey). by rewrite Hq.
  - unfold WebcamTest.loop_body. simpl. by rewrite Hend.
Qed.

Lemma webcam_stream_shows_frames_until_read_fails_witness :
  WebcamTest.start_stream (webcam_env [2] "" true 3 (q_at 7)) 5 2
  = (Print "Starting webcam stream from index 2..."
       :: VideoCapture 2 None true
       :: flat_map (λ k, webcam_shows frame22 (q_at 7 k)) (seq 0 3)
       ++ [CapRead false; cant_receive] ++ stopping_webcam 2,
     Ok tt).
Proof.
  apply (webcam_stream_shows_frames_until_read_fails
           (webcam_env [2] "" true 3 (q_at 7)) 2 5 3 (λ _, frame22) (q_at 7)).
  - reflexivity.
  - intros k Hk. repeat split.
    + simpl. by rewrite (proj2 (Nat.ltb_lt k 3) Hk).
    + unfold q_at. destruct (Nat.eqb_spec k 7) as [->|_]; [lia|reflexivity].
  - reflexivity.
  - lia.
Defined.

Lemma count_webcam_shows (frame : nat → image pixel) (key : nat → Z) l :
  count is_imshow (flat_map (λ k, webcam_shows (frame k) (key k)) l) = length l
  ∧ count is_stream_release
      (flat_map (λ k, webcam_shows (frame k) (key k)) l) = 0%nat.
Proof.
  induction l as [|k l [IH1 IH2]]; [done|].
  simpl. rewrite !count_cons; simpl. by rewrite IH1, IH2.
Qed.

(** X3: The stream loop has no end of its own: while every read succeeds and
    no quit key is polled the session is still streaming after any number
    of iterations, and it has shown one frame per iteration. *)
Theorem webcam_stream_runs_while_frames_arrive e i fuel
    (frame : nat → image pixel) (key : nat → Z) :
  WebcamTest.stream_opens e i = true →
  (∀ k, WebcamTest.cap_read e k = Returns (Some (frame k))
        ∧ WebcamTest.imshow_raises e k = None
        ∧ WebcamTest.waitKey e k = Returns (key k)
        ∧ quit_key (key k) = false) →
  (WebcamTest.start_stream e fuel i).2 = Streaming
  ∧ count is_imshow (WebcamTest.start_stream e fuel i).1 = fuel
  ∧ count is_stream_release (WebcamTest.start_stream e fuel i).1 = 0%nat.
Proof.
  intros Hopen Hgood.
  rewrite (start_stream_opened e fuel i Hopen).
  rewrite (while_true_runs_on (WebcamTest.loop_body e)
             (λ k, webcam_shows (frame k) (key k)) fuel 0).
  2:{ intros j. destruct (Hgood j) as (Hread & Hshow & Hkey & Hq).
      rewrite (loop_body_shows e j _ _ Hread Hshow Hkey). by rewrite Hq. }
  cbn [try_finally fst snd]. split; [done|].
  rewrite !count_cons; cbn [is_imshow is_stream_release].
  destruct (count_webcam_shows frame key (seq 0 fuel)) as [-> ->].
  by rewrite length_seq.
Qed.

Lemma webcam_stream_runs_while_frames_arrive_witness :
  (WebcamTest.start_stream endless_env 40 0).2 = Streaming
  ∧ count is_imshow (WebcamTest.start_stream endless_env 40 0).1 = 40%nat
  ∧ count is_stream_release (WebcamTest.start_stream endless_env 40 0).1 = 0%nat.
Proof.
  apply (webcam_stream_runs_while_frames_arrive endless_env 0 40
           (λ _, frame22) (λ _, -1)).
  - reflexivity.
  - intros k. repeat split.
Defined.

(** X2: A quit key ends the stream after the frame of its iteration was shown:
    the frames of all iterations up to that one are shown, then the capture
    is released and the windows are destroyed, with no error printed. *)
Theorem webcam_stream_ends_at_quit_key e i fuel n
    (frame : nat → image pixel) (key : nat → Z) :
  WebcamTest.stream_opens e i = true →
  (∀ k, (k ≤ n)%nat →
        WebcamTest.cap_read e k = Returns (Some (frame k))
        ∧ WebcamTest.imshow_raises e k = None
        ∧ WebcamTest.waitKey e k = Returns (key k)) →
  (∀ k, (k < n)%nat → quit_key (key k) = false) →
  quit_key (key n) = true →
  (n < fuel)%nat →
  WebcamTest.start_stream e fuel i
  = (Print ("Starting webcam stream from index " +:+ pretty i +:+ "...")
       :: VideoCapture i None true
       :: flat_map (λ k, webcam_shows (frame k) (key k)) (seq 0 (S n))
       ++ stopping_webcam i,
     Ok tt).
Proof.
  intros Hopen Hgood Hno Hquit Hfuel.
  rewrite (start_stream_opened e fuel i Hopen).
  rewrite (while_true_trace (WebcamTest.loop_body e)
             (λ k, webcam_shows (frame k) (key k)) n 0 fuel
             (webcam_shows (frame n) (key n)) (Ok Break)); try done.
  - cbn [try_finally fst snd]. by rewrite seq_S, flat_map_app.
  - intros j Hj. destruct (Hgood j ltac:(lia)) as (Hread & Hshow & Hkey).
    rewrite (loop_body_shows e j _ _ Hread Hshow Hkey).
    by rewrite (Hno j) by lia.
  - destruct (Hgood n ltac:(lia)) as (Hread & Hshow & Hkey). cbn [Nat.add].
    rewrite (loop_body_shows e n _ _ Hread Hshow Hkey). by rewrite Hquit.
Qed.

Lemma webcam_stream_ends_at_quit_key_witness :
  WebcamTest.start_stream (webcam_env [2] "" true 9 (q_at 2)) 5 2
  = (Print "Starting webcam stream from index 2..."
       :: VideoCapture 2 None true
       :: flat_map (λ k, webcam_shows frame22 (q_at 2 k)) (seq 0 3)
       ++ stopping_webcam 2,
     Ok tt).
Proof.
  apply (webcam_stream_ends_at_quit_key
           (webcam_env [2] "" true 9 (q_at 2)) 2 5 2 (λ _, frame22) (q_at 2)).
  - reflexivity.
  - intros k Hk. repeat split.
    simpl. by rewrite (proj2 (Nat.ltb_lt k 9)) by lia.
  - intros k Hk. unfold q_at.
    destruct (Nat.eqb_spec k 2) as [->|_]; [lia|reflexivity].
  - reflexivity.
  - lia.
Defined.

Lemma realsense_body_skips muladd32 COLORMAP_JET re k fs :
  RealsenseCameraTest.wait_for_frames re k = Returns fs →
  fs.1 = None ∨ fs.2 = None →
  RealsenseCameraTest.realsense_body muladd32 COLORMAP_JET re k
  = ([WaitForFrames (bool_decide (is_Some fs.1)) (bool_decide (is_Some fs.2))],
     Ok Continue).
Proof.
  intros Hfs Hmiss. unfold RealsenseCameraTest.realsense_body. rewrite Hfs.
  destruct fs as [[d|] [c|]]; simpl in *; destruct Hmiss; done.
Qed.

Lemma realsense_body_shows muladd32 COLORMAP_JET re k d c images key :
  RealsenseCameraTest.wait_for_frames re k = Returns (Some d, Some c) →
  hstack c (depth_colormap muladd32 COLORMAP_JET d) = Returns images →
  RealsenseCameraTest.imshow_raises re k = None →
  RealsenseCameraTest.waitKey re k = Returns key →
  RealsenseCameraTest.realsense_body muladd32 COLORMAP_JET re k
  = ([WaitForFrames true true; NamedWindow "RealSense Color and Depth";
      Imshow "RealSense Color and Depth" images; WaitKey 1 key],
     Ok (if quit_key key then Break else Continue)).
Proof.
  intros Hpair Hstack Hshow Hkey. unfold RealsenseCameraTest.realsense_body.
  rewrite Hpair; simpl. rewrite Hstack; simpl. rewrite Hshow, Hkey; simpl.
  by destruct (quit_key key).
Qed.

(** X11: [run_realsense] waits through any number of incomplete pairs: each of
    them leaves only its acquisition in the trace (no window, no image, no
    key poll, no message), and the first complete pair is composed and
    shown as if none had been dropped. *)
Theorem realsense_waits_through_incomplete_pairs muladd32 COLORMAP_JET re
    fuel n (pair : nat → option (image Z) * option (image pixel))
    depth_image color_image images key :
  RealsenseCameraTest.pipeline_start re = None →
  (∀ k, (k < n)%nat →
        RealsenseCameraTest.wait_for_frames re k = Returns (pair k)
        ∧ ((pair k).1 = None ∨ (pair k).2 = None)) →
  RealsenseCameraTest.wait_for_frames re n = Returns (Some depth_image, Some color_image) →
  hstack color_image (depth_colormap muladd32 COLORMAP_JET depth_image) = Returns images →
  RealsenseCameraTest.imshow_raises re n = None →
  RealsenseCameraTest.waitKey re n = Returns key →
  quit_key key = true →
  (n < fuel)%nat →
  RealsenseCameraTest.run_realsense muladd32 COLORMAP_JET re fuel
  = (Print "Starting RealSense pipeline..." :: PipelineStart
       :: flat_map (λ k, [WaitForFrames (bool_decide (is_Some (pair k).1))
                            (bool_decide (is_Some (pair k).2))]) (seq 0 n)
       ++ [WaitForFrames true true; NamedWindow "RealSense Color and Depth";
           Imshow "RealSense Color and Depth" images; WaitKey 1 key;
           Print "Stopping RealSense pipeline..."; PipelineStop; DestroyAllWindows],
     Ok tt).
Proof.
  intros Hstart Hdrop Hpair Hstack Hshow Hkey Hquit Hfuel.
  rewrite (run_realsense_started muladd32 COLORMAP_JET re fuel Hstart).
  rewrite (while_true_trace
             (RealsenseCameraTest.realsense_body muladd32 COLORMAP_JET re)
             (λ k, [WaitForFrames (bool_decide (is_Some (pair k).1))
                      (bool_decide (is_Some (pair k).2))]) n 0 fuel
             [WaitForFrames true true; NamedWindow "RealSense Color and Depth";
              Imshow "RealSense Color and Depth" images; WaitKey 1 key]
             (Ok Break)); try done.
  - by rewrite <- app_assoc.
  - intros j Hj. destruct (Hdrop j ltac:(lia)) as [Hj1 Hj2].
    by apply realsense_body_skips.
  - cbn [Nat.add].
    rewrite (realsense_body_shows _ _ re n _ _ _ _ Hpair Hstack Hshow Hkey).
    by rewrite Hquit.
Qed.

Lemma realsense_waits_through_incomplete_pairs_witness :
  ∃ images,
    RealsenseCameraTest.run_realsense muladd32_ieee two_tone
      (realsense_env "1" None (λ k, Returns (drops_pairs 3 k)) false 0 (q_at 3)) 6
    = (Print "Starting RealSense pipeline..." :: PipelineStart
         :: flat_map (λ k, [WaitForFrames
                              (bool_decide (is_Some (drops_pairs 3 k).1))
                              (bool_decide (is_Some (drops_pairs 3 k).2))])
              (seq 0 3)
         ++ [WaitForFrames true true; NamedWindow "RealSense Color and Depth";
             Imshow "RealSense Color and Depth" images; WaitKey 1 113;
             Print "Stopping RealSense pipeline..."; PipelineStop;
             DestroyAllWindows],
       Ok tt).
Proof.
  eexists.
  apply (realsense_waits_through_incomplete_pairs muladd32_ieee two_tone
           (realsense_env "1" None (λ k, Returns (drops_pairs 3 k)) false 0 (q_at 3))
           6 3 (drops_pairs 3) depth22 frame22).
  - reflexivity.
  - intros k Hk. split; [reflexivity|]. right.
    unfold drops_pairs. by rewrite (proj2 (Nat.ltb_lt k 3) Hk).
  - reflexivity.
  - vm_compute. reflexivity.
  - reflexivity.
  - reflexivity.
  - reflexivity.
  - lia.
Defined.

(** ** What the RealSense session leaves behind *)

(** X12: When the pipeline started and an exception raised in the loop ends
    [run_realsense], the [finally] block prints its message and that is the
    last thing the function does: [pipeline.stop()] and
    [cv2.destroyAllWindows()] are not called, and the exception goes on to
    the caller. *)
Theorem realsense_loop_exception_skips_cleanup muladd32 COLORMAP_JET re fuel err :
  RealsenseCameraTest.pipeline_start re = None →
  (RealsenseCameraTest.run_realsense muladd32 COLORMAP_JET re fuel).2 = Raise err →
  last (RealsenseCameraTest.run_realsense muladd32 COLORMAP_JET re fuel).1
  = Some (Print "Stopping RealSense pipeline...")
  ∧ count is_pipeline_start
      (RealsenseCameraTest.run_realsense muladd32 COLORMAP_JET re fuel).1 = 1%nat
  ∧ count is_pipeline_stop
      (RealsenseCameraTest.run_realsense muladd32 COLORMAP_JET re fuel).1 = 0%nat
  ∧ count is_destroy
      (RealsenseCameraTest.run_realsense muladd32 COLORMAP_JET re fuel).1 = 0%nat
  ∧ (RealsenseCameraTest.stdin re = Returns "1" →
     (RealsenseCameraTest.main muladd32 COLORMAP_JET re fuel).2 = Raise err).
Proof.
  intros Hstart Hraise.
  assert (∀ p, off_loop p →
    Forall (λ ev, p ev = false)
      (while_true (RealsenseCameraTest.realsense_body muladd32 COLORMAP_JET re)
         fuel 0).1) as Hloop.
  { intros p Hp. apply Forall_while_true. intros j. by apply realsense_body_off. }
  pose proof (Hloop is_pipeline_start ltac:(by repeat split)) as H1.
  pose proof (Hloop is_pipeline_stop off_loop_stop) as H2.
  pose proof (Hloop is_destroy off_loop_destroy) as H3.
  split; [|split; [|split; [|split]]].
  5:{ intros Hin. unfold RealsenseCameraTest.main. rewrite Hin. simpl.
      destruct (RealsenseCameraTest.run_realsense _ _ re fuel) as [t r];
        simpl in *. by subst r. }
  all: revert Hraise;
    rewrite (run_realsense_started muladd32 COLORMAP_JET re fuel Hstart);
    destruct (while_true _ fuel 0) as [t [[]|err'|]]; simpl in *; try done;
    intros _.
  - rewrite !app_comm_cons. by rewrite last_snoc.
  - rewrite !count_cons, count_app; simpl. by rewrite (count_none _ t H1).
  - rewrite !count_cons, count_app; simpl. by rewrite (count_none _ t H2).
  - rewrite !count_cons, count_app; simpl. by rewrite (count_none _ t H3).
Qed.

Lemma realsense_loop_exception_skips_cleanup_witness :
  count is_pipeline_stop
    (RealsenseCameraTest.run_realsense muladd32_ieee two_tone
       (realsense_env "1" None frames_time_out false 0 (q_at 0)) 3).1 = 0%nat.
Proof.
  apply (realsense_loop_exception_skips_cleanup muladd32_ieee two_tone
           (realsense_env "1" None frames_time_out false 0 (q_at 0)) 3
           (Exception "Frame didn't arrive within 5000")); reflexivity.
Defined.

(** ** The menu of realsense-camera-test.py *)

Lemma main_after_choice muladd32 COLORMAP_JET re fuel choice :
  RealsenseCameraTest.stdin re = Returns choice →
  RealsenseCameraTest.main muladd32 COLORMAP_JET re fuel
  = let rest :=
      if String.eqb choice "1"
      then RealsenseCameraTest.run_realsense muladd32 COLORMAP_JET re fuel
      else if String.eqb choice "2" then RealsenseCameraTest.run_webcam re fuel
      else print "Invalid choice. Please run the script again and enter 1 or 2." in
    (main_menu ++ Input "Enter choice (1 or 2): " choice :: rest.1, rest.2).
Proof.
  intros Hin. unfold RealsenseCameraTest.main. rewrite Hin. simpl.
  by destruct (if String.eqb choice "1" then _ else _).
Qed.

(** X13: [main] compares the line typed with the strings [1] and [2] as they
    are: any other line (a blank before the digit, a word, the empty line)
    prints the invalid-choice message and ends the run with no camera
    opened and no pipeline started; and when [input] itself raises, the
    run ends with that exception right after the menu. *)
Theorem main_opens_nothing_on_other_choice muladd32 COLORMAP_JET re fuel :
  (∀ choice,
     RealsenseCameraTest.stdin re = Returns choice →
     choice ≠ "1" → choice ≠ "2" →
     RealsenseCameraTest.main muladd32 COLORMAP_JET re fuel
     = (main_menu
          ++ [Input "Enter choice (1 or 2): " choice;
              Print "Invalid choice. Please run the script again and enter 1 or 2."],
        Ok tt))
  ∧ (∀ err,
     RealsenseCameraTest.stdin re = Raises err →
     RealsenseCameraTest.main muladd32 COLORMAP_JET re fuel = (main_menu, Raise err))
  ∧ ((∀ choice, RealsenseCameraTest.stdin re = Returns choice →
                choice ≠ "1" ∧ choice ≠ "2") →
     count is_capture (RealsenseCameraTest.main muladd32 COLORMAP_JET re fuel).1 = 0%nat
     ∧ count is_pipeline_start
         (RealsenseCameraTest.main muladd32 COLORMAP_JET re fuel).1 = 0%nat).
Proof.
  assert (∀ choice, RealsenseCameraTest.stdin re = Returns choice →
     choice ≠ "1" → choice ≠ "2" →
     RealsenseCameraTest.main muladd32 COLORMAP_JET re fuel
     = (main_menu
          ++ [Input "Enter choice (1 or 2): " choice;
              Print "Invalid choice. Please run the script again and enter 1 or 2."],
        Ok tt)) as Hother.
  { intros choice Hin H1 H2. rewrite (main_after_choice _ _ re fuel choice Hin).
    apply String.eqb_neq in H1, H2. by rewrite H1, H2. }
  assert (∀ err, RealsenseCameraTest.stdin re = Raises err →
     RealsenseCameraTest.main muladd32 COLORMAP_JET re fuel = (main_menu, Raise err))
    as Hraise.
  { intros err Hin. unfold RealsenseCameraTest.main. by rewrite Hin. }
  split; [done|]. split; [done|]. intros Hnot.
  destruct (RealsenseCameraTest.stdin re) as [choice|err] eqn:Hin.
  - destruct (Hnot choice eq_refl) as [H1 H2].
    by rewrite (Hother choice eq_refl H1 H2).
  - by rewrite (Hraise err eq_refl).
Qed.

Lemma main_opens_nothing_on_other_choice_witness :
  RealsenseCameraTest.main muladd32_ieee two_tone
    (realsense_env " 1" None first_pair_incomplete true 3 (q_at 1)) 5
  = (main_menu
       ++ [Input "Enter choice (1 or 2): " " 1";
           Print "Invalid choice. Please run the script again and enter 1 or 2."],
     Ok tt).
Proof.
  apply (proj1 (main_opens_nothing_on_other_choice muladd32_ieee two_tone
                  (realsense_env " 1" None first_pair_incomplete true 3 (q_at 1))
                  5) " 1"); [reflexivity|discriminate|discriminate].
Defined.

(** X14: A choice of [1] runs the RealSense session and nothing else, a choice
    of [2] the webcam session and nothing else: the run is the menu, the
    line read, and the run of that one function. *)
Theorem main_runs_the_chosen_session muladd32 COLORMAP_JET re fuel :
  (RealsenseCameraTest.stdin re = Returns "1" →
   RealsenseCameraTest.main muladd32 COLORMAP_JET re fuel
   = (main_menu ++ Input "Enter choice (1 or 2): " "1"
        :: (RealsenseCameraTest.run_realsense muladd32 COLORMAP_JET re fuel).1,
      (RealsenseCameraTest.run_realsense muladd32 COLORMAP_JET re fuel).2)
   ∧ count is_capture (RealsenseCameraTest.main muladd32 COLORMAP_JET re fuel).1 = 0%nat)
  ∧ (RealsenseCameraTest.stdin re = Returns "2" →
     RealsenseCameraTest.main muladd32 COLORMAP_JET re fuel
     = (main_menu ++ Input "Enter choice (1 or 2): " "2"
          :: (RealsenseCameraTest.run_webcam re fuel).1,
        (RealsenseCameraTest.run_webcam re fuel).2)
     ∧ count is_pipeline_start
         (RealsenseCameraTest.main muladd32 COLORMAP_JET re fuel).1 = 0%nat).
Proof.
  split; intros Hin; rewrite (main_after_choice _ _ re fuel _ Hin); simpl;
    (split; [done|]); rewrite !count_cons; simpl; apply count_none.
  - unfold RealsenseCameraTest.run_realsense.
    apply Forall_bind; [by repeat constructor|]. intros _.
    destruct (RealsenseCameraTest.pipeline_start re) as [[msg|msg|]|];
      [by repeat constructor|by repeat constructor|constructor|].
    apply Forall_bind; [by repeat constructor|]. intros _.
    apply Forall_bind; [|intros _; by repeat constructor].
    apply Forall_try_finally; [|by repeat constructor].
    apply Forall_while_true. intros j. apply realsense_body_off. by repeat split.
  - unfold RealsenseCameraTest.run_webcam.
    apply Forall_bind; [by repeat constructor|]. intros _.
    destruct (RealsenseCameraTest.cap_opens re); simpl; [|by repeat constructor].
    apply Forall_try_finally; [|by repeat constructor].
    apply Forall_while_true. intros j. apply webcam_body_off. by repeat split.
Qed.

Lemma main_runs_the_chosen_session_witness :
  count is_capture
    (RealsenseCameraTest.main muladd32_ieee two_tone
       (realsense_env "1" None first_pair_incomplete true 3 (q_at 1)) 5).1 = 0%nat.
Proof.
  apply (proj1 (main_runs_the_chosen_session muladd32_ieee two_tone
                  (realsense_env "1" None first_pair_incomplete true 3 (q_at 1)) 5)).
  reflexivity.
Defined.

(** ** Capture handles *)

Lemma handle_after_app t1 : ∀ h t2,
  handle_after h (t1 ++ t2)
  = match handle_after h t1 with
    | Some h' => handle_after h' t2
    | None => None
    end.
Proof.
  induction t1 as [|ev t1 IH]; intros h t2; [done|].
  destruct ev as [| | i api [|]| i api | | | | | | | |]; simpl; try apply IH.
  - destruct h; [done|apply IH].
  - case_decide; [apply IH|done].
Qed.

Lemma handle_after_neutral t : ∀ h,
  Forall (λ ev, is_handle_event ev = false) t → handle_after h t = Some h.
Proof.
  induction t as [|ev t IH]; intros h Ht; [done|].
  apply Forall_cons in Ht as [Hev Ht].
  destruct ev as [| | i api [|]| i api | | | | | | | |]; simpl in *;
    try done; by apply IH.
Qed.

Lemma probe_contract_handles e i :
  handle_after None (probe_contract e i) = Some None.
Proof.
  unfold probe_contract. repeat case_match; simpl; by rewrite ?decide_True.
Qed.

Lemma search_trace_handles e : handle_after None (search_trace e) = Some None.
Proof.
  unfold search_trace; simpl.
  by repeat (rewrite handle_after_app, probe_contract_handles).
Qed.

Lemma selection_logic_off p int e l :
  (∀ s, p (Print s) = false) → (∀ a b, p (Input a b) = false) →
  Forall (λ ev, p ev = false) (WebcamTest.selection_logic int e l).1.
Proof.
  intros Hp Hi. unfold WebcamTest.selection_logic.
  destruct l as [|a [|b l]]; [by repeat constructor|constructor|].
  apply Forall_bind; [by repeat constructor|]. intros _.
  apply Forall_bind.
  { apply Forall_for_in. intros. by repeat constructor. }
  intros _. apply Forall_try_except; [|by repeat constructor].
  apply Forall_bind; [apply Forall_call; by repeat constructor|].
  intros line. destruct (int line) as [s|]; [|by repeat constructor].
  case_bool_decide; by repeat constructor.
Qed.

Lemma off_loop_handle : off_loop is_handle_event.
Proof. by repeat split. Qed.

Lemma session_handles body fuel i (start : list event) :
  (∀ j, Forall (λ ev, is_handle_event ev = false) (body j).1) →
  Forall (λ ev, is_handle_event ev = false) start →
  ∃ h,
    handle_after None
      (start ++ VideoCapture i None true
         :: (try_finally (while_true body fuel 0) (stopping_webcam i, Ok tt)).1)
    = Some h
    ∧ ((try_finally (while_true body fuel 0) (stopping_webcam i, Ok tt)).2
       ≠ Streaming → h = None).
Proof.
  intros Hbody Hstart.
  pose proof (Forall_while_true _ body fuel 0%nat Hbody) as Hloop.
  rewrite handle_after_app, (handle_after_neutral start) by done.
  destruct (while_true body fuel 0) as [t [[]|err|]]; simpl in *.
  3:{ rewrite handle_after_neutral by done. by eexists. }
  all: rewrite handle_after_app, handle_after_neutral by done; simpl;
    rewrite decide_True by done; by eexists.
Qed.

(** X6: In both scripts a run of [run_webcam] keeps the capture handles in
    order: a capture is opened only while none is open (the probe handles
    are released one by one before the stream is opened), only the capture
    that is open is ever released, and once the run has ended, by a return
    or by an exception, no capture is left open. *)
Theorem webcam_handles_are_released_in_order int
    (we : WebcamTest.env) (re : RealsenseCameraTest.env) (fuel : nat) :
  (∃ h, handle_after None (WebcamTest.run_webcam int we fuel).1 = Some h
        ∧ ((WebcamTest.run_webcam int we fuel).2 ≠ Streaming → h = None))
  ∧ (∃ h, handle_after None (RealsenseCameraTest.run_webcam re fuel).1 = Some h
          ∧ ((RealsenseCameraTest.run_webcam re fuel).2 ≠ Streaming → h = None)).
Proof.
  split.
  - rewrite run_webcam_stages.
    pose proof (selection_logic_off is_handle_event int we (found we)
                  ltac:(done) ltac:(done)) as Hsel.
    destruct (WebcamTest.selection_logic int we (found we)) as [t [[i|]|err|]];
      simpl in *.
    2-4: exists None; change (searching :: ?l) with ([searching] ++ l);
      rewrite !handle_after_app; simpl;
      by rewrite search_trace_handles, handle_after_neutral.
    change (searching :: ?l) with ([searching] ++ l).
    rewrite !handle_after_app; simpl. rewrite search_trace_handles.
    rewrite handle_after_app, handle_after_neutral by done.
    destruct (WebcamTest.stream_opens we i) eqn:Hopen.
    + rewrite (start_stream_opened we fuel i Hopen); cbn [fst snd].
      apply (session_handles (WebcamTest.loop_body we) fuel i [Print _]).
      * intros j. apply loop_body_off, off_loop_handle.
      * by repeat constructor.
    + unfold WebcamTest.start_stream. rewrite Hopen. simpl. by eexists.
  - destruct (RealsenseCameraTest.cap_opens re) eqn:Hopen.
    + rewrite (run_webcam_opened re fuel Hopen); cbn [fst snd].
      apply (session_handles (RealsenseCameraTest.webcam_body re) fuel 0 []).
      * intros j. apply webcam_body_off, off_loop_handle.
      * constructor.
    + unfold RealsenseCameraTest.run_webcam. rewrite Hopen. simpl. by eexists.
Qed.

(** ** Which cameras webcam-test.py opens *)

Lemma found_in_range e i : i ∈ found e → 0 ≤ i < 5 ∧ available e i = true.
Proof.
  unfold found. intros [Hav Hin]%list_elem_of_filter.
  split; [|by apply Is_true_true].
  rewrite !elem_of_cons, elem_of_nil in Hin. lia.
Qed.

Lemma search_trace_index e i api o :
  VideoCapture i api o ∈ search_trace e → 0 ≤ i < 5.
Proof.
  unfold search_trace.
  intros (j & Hj & Hin)%list_elem_of_In%in_flat_map.
  apply list_elem_of_In in Hin.
  assert (i = j) as ->.
  { unfold probe_contract in Hin.
    repeat case_match; elem_cases Hin; by simplify_eq. }
  simpl in Hj. lia.
Qed.

Lemma off_stream_probe : off_stream is_probe_open.
Proof. by repeat split. Qed.

(** X7: A run of webcam-test.py opens no camera index outside 0..4, and the
    one capture it opens for streaming (no backend given) is on an index
    that the search found available and that the selection returned. *)
Theorem webcam_opens_only_found_indices int e fuel i api o :
  VideoCapture i api o ∈ (WebcamTest.run_webcam int e fuel).1 →
  0 ≤ i < 5
  ∧ (api = None →
     available e i = true
     ∧ (WebcamTest.selection_logic int e (found e)).2 = Ok (Some i)).
Proof.
  intros Hin. destruct api as [b|].
  - split; [|done]. revert Hin. rewrite run_webcam_stages.
    pose proof (selection_logic_off is_probe_open int e (found e)
                  ltac:(done) ltac:(done)) as Hsel.
    assert (∀ t, Forall (λ ev, is_probe_open ev = false) t →
                 VideoCapture i (Some b) o ∉ t) as Hnot.
    { intros t Ht Hin. rewrite Forall_forall in Ht. by apply Ht in Hin. }
    destruct (WebcamTest.selection_logic int e (found e)) as [t [[j|]|err|]];
      simpl in *.
    2-4: intros [[=]|[Hin|Hin]%elem_of_app]%elem_of_cons;
      [by eapply search_trace_index|by eapply Hnot in Hin].
    destruct (start_stream_trace is_probe_open e fuel j off_stream_probe)
      as (rest & -> & Hrest).
    intros [[=]|[Hin|[Hin|Hin]%elem_of_app]%elem_of_app]%elem_of_cons;
      [by eapply search_trace_index|by eapply Hnot in Hin|].
    elem_cases Hin. by eapply Hnot in Hin.
  - destruct (stream_opens_the_selected_index int e fuel i o Hin)
      as (Hsel & Hfound & _).
    apply found_in_range in Hfound as [Hrange Hav]. done.
Qed.

Lemma webcam_opens_only_found_indices_witness :
  0 ≤ 2 < 5
  ∧ (@None backend = None →
     available (webcam_env [0; 2] "2" true 1 (q_at 0)) 2 = true
     ∧ (WebcamTest.selection_logic int_decimal
          (webcam_env [0; 2] "2" true 1 (q_at 0))
          (found (webcam_env [0; 2] "2" true 1 (q_at 0)))).2 = Ok (Some 2)).
Proof.
  apply (webcam_opens_only_found_indices int_decimal
           (webcam_env [0; 2] "2" true 1 (q_at 0)) 3 2 None true).
  vm_compute. do 18 right. left.
Defined.

(** ** The camera menu *)

Lemma found_sorted e : StronglySorted Z.lt (found e).
Proof. apply StronglySorted_filter, range_5_sorted. Qed.

(** X8: With two or more cameras found, the menu printed before the prompt has
    one line per camera found, in ascending order of index and with no
    index twice, and the prompt follows it. *)
Theorem camera_menu_lists_found_indices int e fuel line :
  (2 ≤ length (found e))%nat →
  WebcamTest.stdin e = Returns line →
  ∃ rest,
    (WebcamTest.run_webcam int e fuel).1
    = searching :: search_trace e
        ++ Print (newline +:+ "Found multiple cameras. Please choose:")
        :: map menu_line (found e)
        ++ Input "Enter camera index: " line :: rest.
Proof.
  intros Hlen Hline. rewrite run_webcam_stages.
  pose proof (selection_logic_multi int e) as Hsel.
  pose proof (sorted_list_set_id (found e) (found_sorted e)) as Hid.
  destruct (found e) as [|a [|b l]] eqn:Hfound; simpl in Hlen; try lia.
  rewrite (Hsel a b l line Hline). unfold menu. rewrite Hid.
  fold menu_line.
  destruct (int line) as [s|]; [case_bool_decide|]; simpl;
    rewrite <- ?app_assoc; simpl.
  - destruct (WebcamTest.start_stream e fuel s) as [t r]; simpl. by eexists.
  - by eexists.
  - by eexists.
Qed.

Lemma camera_menu_lists_found_indices_witness :
  ∃ rest,
    (WebcamTest.run_webcam int_decimal (webcam_env [1; 3; 4] "3" true 0 (q_at 0)) 2).1
    = searching :: search_trace (webcam_env [1; 3; 4] "3" true 0 (q_at 0))
        ++ Print (newline +:+ "Found multiple cameras. Please choose:")
        :: map menu_line (found (webcam_env [1; 3; 4] "3" true 0 (q_at 0)))
        ++ Input "Enter camera index: " "3" :: rest.
Proof.
  apply (camera_menu_lists_found_indices int_decimal
           (webcam_env [1; 3; 4] "3" true 0 (q_at 0)) 2 "3").
  - vm_compute. lia.
  - reflexivity.
Defined.

(** X9: When [input] raises at the camera prompt, the [except ValueError]
    clause decides.  A [ValueError] (an undecodable line) is caught: the
    invalid-input message is printed and the run returns.  Any other
    exception (the input has ended, the user interrupts) is not caught: the
    run ends with it right after the menu.  Either way no stream is
    opened. *)
Theorem input_exception_ends_run_before_stream int e fuel err :
  (2 ≤ length (found e))%nat →
  WebcamTest.stdin e = Raises err →
  WebcamTest.run_webcam int e fuel
  = (searching :: search_trace e
       ++ Print (newline +:+ "Found multiple cameras. Please choose:")
       :: map menu_line (found e)
       ++ (if is_ValueError err
           then [Print "Invalid input. Please enter a number. Exiting."]
           else []),
     if is_ValueError err then Ok tt else Raise err)
  ∧ count is_stream_open (WebcamTest.run_webcam int e fuel).1 = 0%nat.
Proof.
  intros Hlen Hline.
  assert (WebcamTest.run_webcam int e fuel
    = (searching :: search_trace e
         ++ Print (newline +:+ "Found multiple cameras. Please choose:")
         :: map menu_line (found e)
         ++ (if is_ValueError err
             then [Print "Invalid input. Please enter a number. Exiting."]
             else []),
       if is_ValueError err then Ok tt else Raise err)) as Hrun.
  { rewrite run_webcam_stages.
    pose proof (sorted_list_set_id (found e) (found_sorted e)) as Hid.
    destruct (found e) as [|a [|b l]] eqn:Hfound; simpl in Hlen; try lia.
    rewrite (selection_logic_input_raises int e a b l err Hline), Hid.
    by destruct (is_ValueError err). }
  split; [done|]. rewrite Hrun; cbn [fst].
  rewrite count_cons, count_app, count_cons, count_app; simpl.
  rewrite !count_none; [done| | |by apply search_trace_no].
  - by destruct (is_ValueError err); repeat constructor.
  - apply Forall_fmap, Forall_true. done.
Qed.

Lemma input_exception_ends_run_before_stream_witness :
  WebcamTest.run_webcam int_decimal eof_env 3
  = (searching :: search_trace eof_env
       ++ Print (newline +:+ "Found multiple cameras. Please choose:")
       :: map menu_line (found eof_env),
     Raise (Exception "EOF when reading a line"))
  ∧ WebcamTest.run_webcam int_decimal undecodable_env 3
    = (searching :: search_trace undecodable_env
         ++ Print (newline +:+ "Found multiple cameras. Please choose:")
         :: map menu_line (found undecodable_env)
         ++ [Print "Invalid input. Please enter a number. Exiting."],
       Ok tt).
Proof.
  split.
  - refine (eq_trans (proj1 (input_exception_ends_run_before_stream int_decimal
              eof_env 3 (Exception "EOF when reading a line") _ eq_refl)) _).
    + vm_compute. lia.
    + reflexivity.
  - refine (proj1 (input_exception_ends_run_before_stream int_decimal
              undecodable_env 3
              (ValueError "'utf-8' codec can't decode byte 0xff in position 0")
              _ eq_refl)).
    vm_compute. lia.
Defined.

(** ** Key codes with flags *)

Lemma land_255_mod key : Z.land key 0xFF = key mod 256.
Proof. change 0xFF with (Z.ones 8). by rewrite Z.land_ones. Qed.

(** X10: The exit test masks the key code for [q] and not for escape: a key
    code whose low byte is [q] quits whatever its higher bits (lock or
    modifier flags) are, while 27 quits with no higher bit set only; the
    capital [Q] does not quit. *)
Theorem quit_key_masks_q_but_not_escape (m : Z) :
  quit_key (ord "q" + 256 * m) = true
  ∧ quit_key (27 + 256 * m) = bool_decide (m = 0)
  ∧ quit_key (ord "Q") = false
  ∧ (∀ key, quit_key key = true ↔ key mod 256 = ord "q" ∨ key = 27).
Proof.
  assert (∀ key, quit_key key = true ↔ key mod 256 = ord "q" ∨ key = 27) as Hiff.
  { intros key. rewrite quit_key_iff. by rewrite land_255_mod. }
  split; [|split; [|split]]; [| |done|done].
  - apply Hiff. left. rewrite Z.mul_comm, Z_mod_plus_full. done.
  - case_bool_decide as Hm.
    + subst m. done.
    + destruct (quit_key _) eqn:Hq; [|done].
      apply Hiff in Hq as [Hq|Hq]; [|lia].
      rewrite Z.mul_comm, Z_mod_plus_full in Hq. done.
Qed.

(** ** The pixels of the composite image *)




(** ** Exceptions and failures in the webcam session *)

(** X4: An exception raised by [cap.read()] or by [cv2.imshow] in the loop of
    webcam-test.py is not swallowed: the frames of the earlier iterations
    were shown, the [finally] block releases the capture and destroys the
    windows, no error message is printed, and [run_webcam] ends with that
    same exception. *)
Theorem webcam_exception_propagates_after_cleanup e i fuel n err
    (frame : nat → image pixel) (key : nat → Z) :
  WebcamTest.stream_opens e i = true →
  (∀ k, (k < n)%nat →
        WebcamTest.cap_read e k = Returns (Some (frame k))
        ∧ WebcamTest.imshow_raises e k = None
        ∧ WebcamTest.waitKey e k = Returns (key k)
        ∧ quit_key (key k) = false) →
  (n < fuel)%nat →
  (WebcamTest.cap_read e n = Raises err →
   WebcamTest.start_stream e fuel i
   = (Print ("Starting webcam stream from index " +:+ pretty i +:+ "...")
        :: VideoCapture i None true
        :: flat_map (λ k, webcam_shows (frame k) (key k)) (seq 0 n)
        ++ stopping_webcam i,
      Raise err))
  ∧ (∀ shown,
     WebcamTest.cap_read e n = Returns (Some shown) →
     WebcamTest.imshow_raises e n = Some err →
     WebcamTest.start_stream e fuel i
     = (Print ("Starting webcam stream from index " +:+ pretty i +:+ "...")
          :: VideoCapture i None true
          :: flat_map (λ k, webcam_shows (frame k) (key k)) (seq 0 n)
          ++ CapRead true :: stopping_webcam i,
        Raise err)).
Proof.
  intros Hopen Hgood Hfuel.
  assert (∀ j, (0 ≤ j < 0 + n)%nat →
     WebcamTest.loop_body e j = (webcam_shows (frame j) (key j), Ok Continue))
    as Hcont.
  { intros j Hj. destruct (Hgood j ltac:(lia)) as (Hread & Hshow & Hkey & Hq).
    rewrite (loop_body_shows e j _ _ Hread Hshow Hkey). by rewrite Hq. }
  split.
  - intros Hraise. rewrite (start_stream_opened e fuel i Hopen).
    rewrite (while_true_trace (WebcamTest.loop_body e)
               (λ k, webcam_shows (frame k) (key k)) n 0 fuel [] (Raise err));
      try done.
    + cbn [try_finally fst snd]. by rewrite app_nil_r.
    + cbn [Nat.add]. unfold WebcamTest.loop_body. by rewrite Hraise.
  - intros shown Hread Hshow. rewrite (start_stream_opened e fuel i Hopen).
    rewrite (while_true_trace (WebcamTest.loop_body e)
               (λ k, webcam_shows (frame k) (key k)) n 0 fuel
               [CapRead true] (Raise err)); try done.
    + cbn [try_finally fst snd]. by rewrite <- app_assoc.
    + cbn [Nat.add]. unfold WebcamTest.loop_body. rewrite Hread; simpl.
      by rewrite Hshow.
Qed.

Lemma webcam_exception_propagates_after_cleanup_witness :
  WebcamTest.start_stream device_lost_env 5 0
  = (Print "Starting webcam stream from index 0..."
       :: VideoCapture 0 None true
       :: flat_map (λ k, webcam_shows frame22 (-1)) (seq 0 2)
       ++ stopping_webcam 0,
     Raise (Exception "device lost")).
Proof.
  apply (proj1 (webcam_exception_propagates_after_cleanup device_lost_env 0 5 2
                  (Exception "device lost") (λ _, frame22) (λ _, -1)
                  eq_refl
                  ltac:(intros k Hk; repeat split; simpl;
                        by rewrite (proj2 (Nat.ltb_lt k 2) Hk))
                  ltac:(lia))).
  reflexivity.
Defined.

(** X5: A camera that the search found but that does not open for the stream
    ends the run of webcam-test.py there: the error is printed, the run
    returns, no frame is read, and no other camera found is tried. *)
Theorem stream_open_failure_ends_run int e fuel i :
  (WebcamTest.selection_logic int e (found e)).2 = Ok (Some i) →
  WebcamTest.stream_opens e i = false →
  WebcamTest.run_webcam int e fuel
  = (searching :: search_trace e
       ++ (WebcamTest.selection_logic int e (found e)).1
       ++ [Print ("Starting webcam stream from index " +:+ pretty i +:+ "...");
           VideoCapture i None false;
           Print ("Error: Failed to open camera at index " +:+ pretty i
                  +:+ " (it may be in use).")],
     Ok tt)
  ∧ count is_stream_open (WebcamTest.run_webcam int e fuel).1 = 1%nat.
Proof.
  intros Hsel Hopen.
  assert (WebcamTest.run_webcam int e fuel
    = (searching :: search_trace e
         ++ (WebcamTest.selection_logic int e (found e)).1
         ++ [Print ("Starting webcam stream from index " +:+ pretty i +:+ "...");
             VideoCapture i None false;
             Print ("Error: Failed to open camera at index " +:+ pretty i
                    +:+ " (it may be in use).")],
       Ok tt)) as Hrun.
  { rewrite run_webcam_stages.
    destruct (WebcamTest.selection_logic int e (found e)) as [t r];
      simpl in *. subst r.
    unfold WebcamTest.start_stream. by rewrite Hopen. }
  split; [done|]. rewrite Hrun; cbn [fst].
  rewrite count_cons, !count_app, !count_cons; simpl.
  rewrite !count_none;
    [done|constructor|apply selection_logic_no_stream_open
    |by apply search_trace_no].
Qed.

Lemma stream_open_failure_ends_run_witness :
  count is_stream_open
    (WebcamTest.run_webcam int_decimal (webcam_env [0; 2] "0" false 5 (q_at 1)) 4).1
  = 1%nat.
Proof.
  apply (stream_open_failure_ends_run int_decimal
           (webcam_env [0; 2] "0" false 5 (q_at 1)) 4 0); reflexivity.
Defined.

(** ** An iteration within its loop *)

Lemma while_true_continue body fuel k t :
  body k = (t, Ok Continue) →
  while_true body (S fuel) k
  = (t ++ (while_true body fuel (S k)).1, (while_true body fuel (S k)).2).
Proof. intros Hk. simpl. rewrite Hk. simpl. by destruct (while_true _ _ _). Qed.

Lemma while_true_break body fuel k t :
  body k = (t, Ok Break) → while_true body (S fuel) k = (t, Ok tt).
Proof. intros Hk. simpl. rewrite Hk. simpl. by rewrite app_nil_r. Qed.

Lemma reaches_continue body k j :
  reaches body k → (j < k)%nat → body j = ((body j).1, Ok Continue).
Proof. intros Hreach Hj. specialize (Hreach j Hj). by destruct (body j) as [t r]; simpl in *; subst. Qed.

(** A loop observed for exactly the iterations it got through is still
    streaming. *)
Lemma while_true_still body m : ∀ k0,
  (∀ j, (k0 ≤ j < k0 + m)%nat → (body j).2 = Ok Continue) →
  while_true body m k0 = (flat_map (λ j, (body j).1) (seq k0 m), Streaming).
Proof.
  induction m as [|m IH]; intros k0 Hcont; [done|].
  assert (body k0 = ((body k0).1, Ok Continue)) as Hk0.
  { specialize (Hcont k0 ltac:(lia)). by destruct (body k0) as [t r]; simpl in *; subst. }
  rewrite (while_true_continue body m k0 _ Hk0).
  rewrite (IH (S k0)) by (intros j Hj; apply Hcont; lia). done.
Qed.

(** The loop that reaches iteration [k] and breaks there. *)
Lemma loop_breaks_at body k t fuel :
  reaches body k → body k = (t, Ok Break) → (k < fuel)%nat →
  while_true body fuel 0 = (earlier body k ++ t, Ok tt).
Proof.
  intros Hreach Hk Hfuel.
  apply (while_true_trace body (λ j, (body j).1) k 0 fuel t (Ok Break));
    try done.
  intros j Hj. apply (reaches_continue body k); [done|lia].
Qed.

(** The loop that reaches iteration [k] and continues from it, observed up
    to there. *)
Lemma loop_continues_at body k t :
  reaches body k → body k = (t, Ok Continue) →
  while_true body (S k) 0 = (earlier body k ++ t, Streaming).
Proof.
  intros Hreach Hk.
  rewrite (while_true_still body (S k) 0).
  - unfold earlier. rewrite seq_S, flat_map_app. simpl.
    by rewrite Hk, app_nil_r.
  - intros j Hj. destruct (decide (j = k)) as [->|Hne]; [by rewrite Hk|].
    apply Hreach. lia.
Qed.

Lemma while_true_elem body ev fuel : ∀ k,
  ev ∈ (while_true body fuel k).1 →
  ∃ j, (k ≤ j < k + fuel)%nat ∧ ev ∈ (body j).1.
Proof.
  induction fuel as [|fuel IH]; intros k; simpl; [by intros ?%elem_of_nil|].
  assert (∀ t r, body k = (t, r) → ev ∈ t →
                 ∃ j, (k ≤ j < k + S fuel)%nat ∧ ev ∈ (body j).1) as Hhere.
  { intros t r Hk Hin. exists k. rewrite Hk. split; [lia|done]. }
  destruct (body k) as [t [[|]|err|]] eqn:Hk; simpl; eauto.
  - destruct (while_true body fuel (S k)) as [t' r] eqn:Hloop; simpl.
    intros [Hin|Hin]%elem_of_app; [eauto|].
    destruct (IH (S k)) as (j & Hj & Hev); [by rewrite Hloop|].
    exists j. split; [lia|done].
  - rewrite app_nil_r. eauto.
Qed.

Lemma loop_body_fails e k :
  WebcamTest.cap_read e k = Returns None →
  WebcamTest.loop_body e k = ([CapRead false; cant_receive], Ok Break).
Proof. intros Hread. unfold WebcamTest.loop_body. by rewrite Hread. Qed.

Lemma webcam_body_fails re k :
  RealsenseCameraTest.cap_read re k = Returns None →
  RealsenseCameraTest.webcam_body re k = ([CapRead false; cant_receive], Ok Break).
Proof. intros Hread. unfold RealsenseCameraTest.webcam_body. by rewrite Hread. Qed.

Lemma webcam_body_shows re k frame key :
  RealsenseCameraTest.cap_read re k = Returns (Some frame) →
  RealsenseCameraTest.imshow_raises re k = None →
  RealsenseCameraTest.waitKey re k = Returns key →
  RealsenseCameraTest.webcam_body re k
  = (webcam_shows frame key, Ok (if quit_key key then Break else Continue)).
Proof.
  intros Hread Hshow Hkey. unfold RealsenseCameraTest.webcam_body.
  rewrite Hread; simpl. rewrite Hshow, Hkey; simpl. by destruct (quit_key key).
Qed.

Lemma loop_body_imshow e k w m :
  Imshow w m ∈ (WebcamTest.loop_body e k).1 →
  WebcamTest.cap_read e k = Returns (Some m).
Proof.
  unfold WebcamTest.loop_body.
  destruct (WebcamTest.cap_read e k) as [[frame|]|]; simpl;
    try (intros Hin; by elem_cases Hin).
  destruct (WebcamTest.imshow_raises e k); simpl;
    [intros Hin; by elem_cases Hin|].
  destruct (WebcamTest.waitKey e k) as [key|]; simpl;
    [destruct (quit_key key); simpl|..];
    intros Hin; elem_cases Hin; by simplify_eq.
Qed.

Lemma webcam_body_imshow re k w m :
  Imshow w m ∈ (RealsenseCameraTest.webcam_body re k).1 →
  RealsenseCameraTest.cap_read re k = Returns (Some m).
Proof.
  unfold RealsenseCameraTest.webcam_body.
  destruct (RealsenseCameraTest.cap_read re k) as [[frame|]|]; simpl;
    try (intros Hin; by elem_cases Hin).
  destruct (RealsenseCameraTest.imshow_raises re k); simpl;
    [intros Hin; by elem_cases Hin|].
  destruct (RealsenseCameraTest.waitKey re k) as [key|]; simpl;
    [destruct (quit_key key); simpl|..];
    intros Hin; elem_cases Hin; by simplify_eq.
Qed.

Lemma realsense_body_imshow muladd32 COLORMAP_JET re k w m :
  Imshow w m ∈ (RealsenseCameraTest.realsense_body muladd32 COLORMAP_JET re k).1 →
  ∃ depth_image color_image,
    RealsenseCameraTest.wait_for_frames re k = Returns (Some depth_image, Some color_image)
    ∧ hstack color_image (depth_colormap muladd32 COLORMAP_JET depth_image) = Returns m.
Proof.
  unfold RealsenseCameraTest.realsense_body.
  destruct (RealsenseCameraTest.wait_for_frames re k) as [[[d|] [c|]]|];
    simpl; try (intros Hin; by elem_cases Hin).
  destruct (hstack c _) as [images|] eqn:Hstack; simpl;
    try (intros Hin; by elem_cases Hin).
  destruct (RealsenseCameraTest.imshow_raises re k); simpl;
    [intros Hin; by elem_cases Hin|].
  destruct (RealsenseCameraTest.waitKey re k) as [key|]; simpl;
    [destruct (quit_key key); simpl|..];
    intros Hin; elem_cases Hin; simplify_eq; eauto.
Qed.

(** An image shown anywhere in a session was shown by one of the iterations
    its loop ran. *)
Lemma session_imshow body fuel (start : list event) cleanup w m :
  Forall (λ ev, is_imshow ev = false) start →
  Forall (λ ev, is_imshow ev = false) cleanup →
  Imshow w m ∈ start ++ (try_finally (while_true body fuel 0) (cleanup, Ok tt)).1 →
  ∃ j, (j < fuel)%nat ∧ Imshow w m ∈ (body j).1.
Proof.
  intros Hstart Hclean.
  assert (∀ t, Forall (λ ev, is_imshow ev = false) t → Imshow w m ∉ t) as Hnot.
  { intros t Ht Hin. rewrite Forall_forall in Ht. by apply Ht in Hin. }
  pose proof (Hnot _ Hstart) as Hs. pose proof (Hnot _ Hclean) as Hc.
  assert (Imshow w m ∈ (while_true body fuel 0).1 →
          ∃ j, (j < fuel)%nat ∧ Imshow w m ∈ (body j).1) as Hloop.
  { intros Hin. destruct (while_true_elem body _ fuel 0%nat Hin) as (j & Hj & Hev).
    exists j. split; [lia|done]. }
  destruct (while_true body fuel 0) as [t [[]|err|]]; simpl in *;
    rewrite ?elem_of_app; intros Hin; clear Hnot; tauto.
Qed.

(** ** An iteration within its session *)

Lemma session_breaks_at body k t fuel cleanup :
  reaches body k → body k = (t, Ok Break) → (k < fuel)%nat →
  try_finally (while_true body fuel 0) (cleanup, Ok tt)
  = (earlier body k ++ t ++ cleanup, Ok tt).
Proof.
  intros Hreach Hk Hfuel. rewrite (loop_breaks_at body k t fuel); try done.
  simpl. by rewrite <- app_assoc.
Qed.

Lemma session_continues_at body k t cleanup :
  reaches body k → body k = (t, Ok Continue) →
  try_finally (while_true body (S k) 0) (cleanup, Ok tt)
  = (earlier body k ++ t, Streaming).
Proof. intros Hreach Hk. by rewrite (loop_continues_at body k t). Qed.

Lemma start_stream_breaks_at e k t fuel i :
  WebcamTest.stream_opens e i = true →
  reaches (WebcamTest.loop_body e) k →
  WebcamTest.loop_body e k = (t, Ok Break) → (k < fuel)%nat →
  WebcamTest.start_stream e fuel i
  = (Print ("Starting webcam stream from index " +:+ pretty i +:+ "...")
       :: VideoCapture i None true
       :: earlier (WebcamTest.loop_body e) k ++ t ++ stopping_webcam i,
     Ok tt).
Proof.
  intros Hopen Hreach Hk Hfuel. rewrite (start_stream_opened e fuel i Hopen).
  by rewrite (session_breaks_at _ k t fuel).
Qed.

Lemma start_stream_continues_at e k t i :
  WebcamTest.stream_opens e i = true →
  reaches (WebcamTest.loop_body e) k →
  WebcamTest.loop_body e k = (t, Ok Continue) →
  WebcamTest.start_stream e (S k) i
  = (Print ("Starting webcam stream from index " +:+ pretty i +:+ "...")
       :: VideoCapture i None true
       :: earlier (WebcamTest.loop_body e) k ++ t,
     Streaming).
Proof.
  intros Hopen Hreach Hk. rewrite (start_stream_opened e (S k) i Hopen).
  by rewrite (session_continues_at _ k t).
Qed.

(** [run_webcam] of webcam-test.py once the selection settled on [i]. *)
Lemma run_webcam_selected int e fuel sel i :
  WebcamTest.selection_logic int e (found e) = (sel, Ok (Some i)) →
  WebcamTest.run_webcam int e fuel
  = (searching :: search_trace e ++ sel ++ (WebcamTest.start_stream e fuel i).1,
     (WebcamTest.start_stream e fuel i).2).
Proof. intros Hsel. by rewrite run_webcam_stages, Hsel. Qed.

Lemma run_webcam_breaks_at re k t fuel :
  RealsenseCameraTest.cap_opens re = true →
  reaches (RealsenseCameraTest.webcam_body re) k →
  RealsenseCameraTest.webcam_body re k = (t, Ok Break) → (k < fuel)%nat →
  RealsenseCameraTest.run_webcam re fuel
  = (VideoCapture 0 None true
       :: earlier (RealsenseCameraTest.webcam_body re) k ++ t ++ stopping_webcam 0,
     Ok tt).
Proof.
  intros Hopen Hreach Hk Hfuel. rewrite (run_webcam_opened re fuel Hopen).
  by rewrite (session_breaks_at _ k t fuel).
Qed.

Lemma run_webcam_continues_at re k t :
  RealsenseCameraTest.cap_opens re = true →
  reaches (RealsenseCameraTest.webcam_body re) k →
  RealsenseCameraTest.webcam_body re k = (t, Ok Continue) →
  RealsenseCameraTest.run_webcam re (S k)
  = (VideoCapture 0 None true
       :: earlier (RealsenseCameraTest.webcam_body re) k ++ t,
     Streaming).
Proof.
  intros Hopen Hreach Hk. rewrite (run_webcam_opened re (S k) Hopen).
  by rewrite (session_continues_at _ k t).
Qed.

Lemma run_realsense_breaks_at muladd32 COLORMAP_JET re k t fuel :
  RealsenseCameraTest.pipeline_start re = None →
  reaches (RealsenseCameraTest.realsense_body muladd32 COLORMAP_JET re) k →
  RealsenseCameraTest.realsense_body muladd32 COLORMAP_JET re k = (t, Ok Break) →
  (k < fuel)%nat →
  RealsenseCameraTest.run_realsense muladd32 COLORMAP_JET re fuel
  = (Print "Starting RealSense pipeline..." :: PipelineStart
       :: earlier (RealsenseCameraTest.realsense_body muladd32 COLORMAP_JET re) k
       ++ t
       ++ [Print "Stopping RealSense pipeline..."; PipelineStop; DestroyAllWindows],
     Ok tt).
Proof.
  intros Hstart Hreach Hk Hfuel.
  rewrite (run_realsense_started muladd32 COLORMAP_JET re fuel Hstart).
  rewrite (loop_breaks_at _ k t fuel); try done. by rewrite <- app_assoc.
Qed.

Lemma run_realsense_continues_at muladd32 COLORMAP_JET re k t :
  RealsenseCameraTest.pipeline_start re = None →
  reaches (RealsenseCameraTest.realsense_body muladd32 COLORMAP_JET re) k →
  RealsenseCameraTest.realsense_body muladd32 COLORMAP_JET re k = (t, Ok Continue) →
  RealsenseCameraTest.run_realsense muladd32 COLORMAP_JET re (S k)
  = (Print "Starting RealSense pipeline..." :: PipelineStart
       :: earlier (RealsenseCameraTest.realsense_body muladd32 COLORMAP_JET re) k
       ++ t,
     Streaming).
Proof.
  intros Hstart Hreach Hk.
  rewrite (run_realsense_started muladd32 COLORMAP_JET re (S k) Hstart).
  by rewrite (loop_continues_at _ k t).
Qed.

(** ** The images a session shows *)

Lemma start_stream_imshow e fuel i w m :
  Imshow w m ∈ (WebcamTest.start_stream e fuel i).1 →
  ∃ j, (j < fuel)%nat ∧ WebcamTest.cap_read e j = Returns (Some m).
Proof.
  destruct (WebcamTest.stream_opens e i) eqn:Hopen.
  - rewrite (start_stream_opened e fuel i Hopen). cbn [fst]. intros Hin.
    destruct (session_imshow (WebcamTest.loop_body e) fuel
                [Print ("Starting webcam stream from index " +:+ pretty i +:+ "...");
                 VideoCapture i None true]
                (stopping_webcam i) w m) as (j & Hj & Hev);
      [by repeat constructor|by repeat constructor|done|].
    exists j. split; [done|]. by apply (loop_body_imshow e j w m).
  - unfold WebcamTest.start_stream. rewrite Hopen. simpl.
    intros Hin. by elem_cases Hin.
Qed.

Lemma webcam_test_imshow int e fuel w m :
  Imshow w m ∈ (WebcamTest.run_webcam int e fuel).1 →
  ∃ j, (j < fuel)%nat ∧ WebcamTest.cap_read e j = Returns (Some m).
Proof.
  assert (Imshow w m ∉ searching :: search_trace e) as Hsearch.
  { intros Hin. assert (Forall (λ ev, is_imshow ev = false)
                          (searching :: search_trace e)) as Hoff
      by (constructor; [done|by apply (search_trace_no is_imshow)]).
    rewrite Forall_forall in Hoff. by apply Hoff in Hin. }
  assert (Imshow w m ∉ (WebcamTest.selection_logic int e (found e)).1) as Hsel.
  { intros Hin.
    pose proof (selection_logic_off is_imshow int e (found e)
                  ltac:(done) ltac:(done)) as Hoff.
    rewrite Forall_forall in Hoff. by apply Hoff in Hin. }
  rewrite run_webcam_stages.
  destruct (WebcamTest.selection_logic int e (found e)) as [t [[i|]|err|]];
    cbn [fst] in *; rewrite ?app_comm_cons, ?elem_of_app;
    try (intros [?|?]; done).
  intros [?|[?|Hin]]; try done. by apply (start_stream_imshow e fuel i w).
Qed.

Lemma run_webcam_imshow re fuel w m :
  Imshow w m ∈ (RealsenseCameraTest.run_webcam re fuel).1 →
  ∃ j, (j < fuel)%nat ∧ RealsenseCameraTest.cap_read re j = Returns (Some m).
Proof.
  destruct (RealsenseCameraTest.cap_opens re) eqn:Hopen.
  - rewrite (run_webcam_opened re fuel Hopen). cbn [fst]. intros Hin.
    destruct (session_imshow (RealsenseCameraTest.webcam_body re) fuel
                [VideoCapture 0 None true] (stopping_webcam 0) w m)
      as (j & Hj & Hev); [by repeat constructor|by repeat constructor|done|].
    exists j. split; [done|]. by apply (webcam_body_imshow re j w m).
  - unfold RealsenseCameraTest.run_webcam. rewrite Hopen. simpl.
    intros Hin. by elem_cases Hin.
Qed.

Lemma run_realsense_imshow muladd32 COLORMAP_JET re fuel w m :
  Imshow w m ∈ (RealsenseCameraTest.run_realsense muladd32 COLORMAP_JET re fuel).1 →
  ∃ j depth_image color_image,
    (j < fuel)%nat
    ∧ RealsenseCameraTest.wait_for_frames re j = Returns (Some depth_image, Some color_image)
    ∧ hstack color_image (depth_colormap muladd32 COLORMAP_JET depth_image) = Returns m.
Proof.
  destruct (RealsenseCameraTest.pipeline_start re) as [err|] eqn:Hstart.
  - unfold RealsenseCameraTest.run_realsense. rewrite Hstart.
    destruct err; simpl; intros Hin; by elem_cases Hin.
  - rewrite (run_realsense_started muladd32 COLORMAP_JET re fuel Hstart).
    intros Hin.
    assert (Imshow w m ∈ (while_true (RealsenseCameraTest.realsense_body
                                        muladd32 COLORMAP_JET re) fuel 0).1) as Hloop.
    { destruct (while_true _ fuel 0) as [t [[]|err|]]; cbn [fst] in *;
        apply elem_of_cons in Hin as [?|Hin]; try done;
        apply elem_of_cons in Hin as [?|Hin]; try done;
        apply elem_of_app in Hin as [?|Hin]; try done;
        by elem_cases Hin. }
    destruct (while_true_elem _ _ fuel 0%nat Hloop) as (j & Hj & Hev).
    destruct (realsense_body_imshow muladd32 COLORMAP_JET re j w m Hev)
      as (d & c & Hpair & Hstack).
    exists j, d, c. split; [lia|done].
Qed.

(** ** Failed acquisitions and key polls, in the loop and in the session *)

(** C5: an iteration whose acquisition failed, by itself, in its loop and in
    its session.  In [run_realsense] a pair that lacks its depth or its
    colour frame makes the iteration [continue] with nothing printed,
    processed or shown: the loop goes on with the next iteration, and the
    session is still streaming, with nothing stopped or closed.  In both
    [run_webcam]s a read that returns [False] prints the error and breaks
    the loop: no further iteration runs, the capture is released, the
    windows are destroyed and the function returns.  In all three sessions
    an image is shown only when the acquisition of one of the iterations
    that ran succeeded, and it is the image acquired there. *)
Theorem failed_acquisition_skips_or_ends int muladd32 COLORMAP_JET
    (we : WebcamTest.env) (re : RealsenseCameraTest.env) (k : nat) :
  (∀ fs, RealsenseCameraTest.wait_for_frames re k = Returns fs →
         fs.1 = None ∨ fs.2 = None →
         RealsenseCameraTest.realsense_body muladd32 COLORMAP_JET re k
         = ([WaitForFrames (bool_decide (is_Some fs.1)) (bool_decide (is_Some fs.2))],
            Ok Continue))
  ∧ (WebcamTest.cap_read we k = Returns None →
     WebcamTest.loop_body we k = ([CapRead false; cant_receive], Ok Break))
  ∧ (RealsenseCameraTest.cap_read re k = Returns None →
     RealsenseCameraTest.webcam_body re k = ([CapRead false; cant_receive], Ok Break))
  ∧ (∀ w m, Imshow w m ∈ (RealsenseCameraTest.realsense_body muladd32 COLORMAP_JET re k).1 →
       ∃ depth_image color_image,
         RealsenseCameraTest.wait_for_frames re k = Returns (Some depth_image, Some color_image)
         ∧ hstack color_image (depth_colormap muladd32 COLORMAP_JET depth_image) = Returns m)
  ∧ (∀ w m, Imshow w m ∈ (WebcamTest.loop_body we k).1 →
       WebcamTest.cap_read we k = Returns (Some m))
  ∧ (∀ w m, Imshow w m ∈ (RealsenseCameraTest.webcam_body re k).1 →
       RealsenseCameraTest.cap_read re k = Returns (Some m))
  (* the RealSense loop goes on with iteration [k+1] *)
  ∧ (∀ fs fuel,
       RealsenseCameraTest.wait_for_frames re k = Returns fs →
       fs.1 = None ∨ fs.2 = None →
       while_true (RealsenseCameraTest.realsense_body muladd32 COLORMAP_JET re) (S fuel) k
       = ([WaitForFrames (bool_decide (is_Some fs.1)) (bool_decide (is_Some fs.2))]
            ++ (while_true (RealsenseCameraTest.realsense_body muladd32 COLORMAP_JET re)
                  fuel (S k)).1,
          (while_true (RealsenseCameraTest.realsense_body muladd32 COLORMAP_JET re)
             fuel (S k)).2))
  (* and its session is still streaming after it *)
  ∧ (∀ fs,
       RealsenseCameraTest.wait_for_frames re k = Returns fs →
       fs.1 = None ∨ fs.2 = None →
       RealsenseCameraTest.pipeline_start re = None →
       reaches (RealsenseCameraTest.realsense_body muladd32 COLORMAP_JET re) k →
       RealsenseCameraTest.run_realsense muladd32 COLORMAP_JET re (S k)
       = (Print "Starting RealSense pipeline..." :: PipelineStart
            :: earlier (RealsenseCameraTest.realsense_body muladd32 COLORMAP_JET re) k
            ++ [WaitForFrames (bool_decide (is_Some fs.1)) (bool_decide (is_Some fs.2))],
          Streaming))
  (* the loop of webcam-test.py ends at iteration [k] *)
  ∧ (∀ fuel,
       WebcamTest.cap_read we k = Returns None →
       while_true (WebcamTest.loop_body we) (S fuel) k
       = ([CapRead false; cant_receive], Ok tt))
  (* and so do its stream and its run *)
  ∧ (∀ fuel i,
       WebcamTest.cap_read we k = Returns None →
       WebcamTest.stream_opens we i = true →
       reaches (WebcamTest.loop_body we) k → (k < fuel)%nat →
       WebcamTest.start_stream we fuel i
       = (Print ("Starting webcam stream from index " +:+ pretty i +:+ "...")
            :: VideoCapture i None true
            :: earlier (WebcamTest.loop_body we) k
            ++ [CapRead false; cant_receive] ++ stopping_webcam i,
          Ok tt))
  ∧ (∀ fuel i sel,
       WebcamTest.cap_read we k = Returns None →
       WebcamTest.selection_logic int we (found we) = (sel, Ok (Some i)) →
       WebcamTest.stream_opens we i = true →
       reaches (WebcamTest.loop_body we) k → (k < fuel)%nat →
       WebcamTest.run_webcam int we fuel
       = (searching :: search_trace we ++ sel
            ++ Print ("Starting webcam stream from index " +:+ pretty i +:+ "...")
            :: VideoCapture i None true
            :: earlier (WebcamTest.loop_body we) k
            ++ [CapRead false; cant_receive] ++ stopping_webcam i,
          Ok tt))
  (* the loop of [run_webcam] in realsense-camera-test.py ends at [k] *)
  ∧ (∀ fuel,
       RealsenseCameraTest.cap_read re k = Returns None →
       while_true (RealsenseCameraTest.webcam_body re) (S fuel) k
       = ([CapRead false; cant_receive], Ok tt))
  (* and so does its run *)
  ∧ (∀ fuel,
       RealsenseCameraTest.cap_read re k = Returns None →
       RealsenseCameraTest.cap_opens re = true →
       reaches (RealsenseCameraTest.webcam_body re) k → (k < fuel)%nat →
       RealsenseCameraTest.run_webcam re fuel
       = (VideoCapture 0 None true
            :: earlier (RealsenseCameraTest.webcam_body re) k
            ++ [CapRead false; cant_receive] ++ stopping_webcam 0,
          Ok tt))
  (* an image shown by a run was acquired by one of its iterations *)
  ∧ (∀ fuel w m,
       Imshow w m ∈ (RealsenseCameraTest.run_realsense muladd32 COLORMAP_JET re fuel).1 →
       ∃ j depth_image color_image,
         (j < fuel)%nat
         ∧ RealsenseCameraTest.wait_for_frames re j
           = Returns (Some depth_image, Some color_image)
         ∧ hstack color_image (depth_colormap muladd32 COLORMAP_JET depth_image)
           = Returns m)
  ∧ (∀ fuel w m,
       Imshow w m ∈ (WebcamTest.run_webcam int we fuel).1 →
       ∃ j, (j < fuel)%nat ∧ WebcamTest.cap_read we j = Returns (Some m))
  ∧ (∀ fuel w m,
       Imshow w m ∈ (RealsenseCameraTest.run_webcam re fuel).1 →
       ∃ j, (j < fuel)%nat ∧ RealsenseCameraTest.cap_read re j = Returns (Some m)).
Proof.
  split_and!.
  - intros fs. apply realsense_body_skips.
  - apply loop_body_fails.
  - apply webcam_body_fails.
  - intros w m. apply realsense_body_imshow.
  - intros w m. apply loop_body_imshow.
  - intros w m. apply webcam_body_imshow.
  - intros fs fuel Hfs Hmiss. apply while_true_continue.
    by apply realsense_body_skips.
  - intros fs Hfs Hmiss Hstart Hreach.
    apply run_realsense_continues_at; try done.
    by apply realsense_body_skips.
  - intros fuel Hread. apply while_true_break. by apply loop_body_fails.
  - intros fuel i Hread Hopen Hreach Hfuel.
    apply start_stream_breaks_at; try done. by apply loop_body_fails.
  - intros fuel i sel Hread Hsel Hopen Hreach Hfuel.
    rewrite (run_webcam_selected int we fuel sel i Hsel).
    rewrite (start_stream_breaks_at we k [CapRead false; cant_receive] fuel i);
      try done.
    by apply loop_body_fails.
  - intros fuel Hread. apply while_true_break. by apply webcam_body_fails.
  - intros fuel Hread Hopen Hreach Hfuel.
    apply run_webcam_breaks_at; try done. by apply webcam_body_fails.
  - intros fuel w m. apply run_realsense_imshow.
  - intros fuel w m. apply webcam_test_imshow.
  - intros fuel w m. apply run_webcam_imshow.
Qed.

Lemma failed_acquisition_skips_or_ends_witness :
  RealsenseCameraTest.run_realsense muladd32_ieee two_tone
    (realsense_env "1" None (λ k, Returns (drops_pairs 2 k)) true 1 (q_at 5)) 2
  = ([Print "Starting RealSense pipeline..."; PipelineStart;
      WaitForFrames true false; WaitForFrames true false],
     Streaming)
  ∧ WebcamTest.run_webcam int_decimal (webcam_env [2] "" true 1 (q_at 5)) 4
    = (searching :: search_trace (webcam_env [2] "" true 1 (q_at 5))
         ++ [Print "Starting webcam stream from index 2...";
             VideoCapture 2 None true;
             CapRead true; Imshow "Normal Webcam" frame22; WaitKey 1 (-1);
             CapRead false; cant_receive;
             Print "Stopping webcam stream..."; Release 2 None; DestroyAllWindows],
       Ok tt)
  ∧ RealsenseCameraTest.run_webcam
      (realsense_env "1" None (λ k, Returns (drops_pairs 2 k)) true 1 (q_at 5)) 4
    = ([VideoCapture 0 None true;
        CapRead true; Imshow "Normal Webcam" frame22; WaitKey 1 (-1);
        CapRead false; cant_receive;
        Print "Stopping webcam stream..."; Release 0 None; DestroyAllWindows],
       Ok tt).
Proof.
  destruct (failed_acquisition_skips_or_ends int_decimal muladd32_ieee two_tone
              (webcam_env [2] "" true 1 (q_at 5))
              (realsense_env "1" None (λ k, Returns (drops_pairs 2 k)) true 1 (q_at 5))
              1)
    as (_ & _ & _ & _ & _ & _ & _ & Hskip & _ & _ & Hrun & _ & Hcam & _).
  split; [|split].
  - apply (Hskip (Some depth22, None)).
    + reflexivity.
    + right. reflexivity.
    + reflexivity.
    + intros j Hj. destruct j as [|j]; [reflexivity|lia].
  - apply (Hrun 4%nat 2 []).
    + reflexivity.
    + reflexivity.
    + reflexivity.
    + intros j Hj. destruct j as [|j]; [reflexivity|lia].
    + lia.
  - apply (Hcam 4%nat).
    + reflexivity.
    + reflexivity.
    + intros j Hj. destruct j as [|j]; [reflexivity|lia].
    + lia.
Defined.

Lemma while_true_polled body fuel k t key :
  body k = (t, Ok (if quit_key key then Break else Continue)) →
  while_true body (S fuel) k
  = if quit_key key then (t, Ok tt)
    else (t ++ (while_true body fuel (S k)).1, (while_true body fuel (S k)).2).
Proof.
  intros Hk. destruct (quit_key key).
  - by apply while_true_break.
  - by apply while_true_continue.
Qed.

(** C9: an iteration that acquired and showed its frame polls a key with
    [waitKey(1)] right after [imshow], and it breaks the loop exactly when
    the low byte of the polled key is the character [q] or the polled key
    is 27; with any other polled key the loop continues.  For a key code
    in 0..255 the low byte is the key itself, and no key (-1) continues.
    In the loop: on a quit key no further iteration runs, and on any other
    key the loop goes on with the next iteration.  In the session: on a
    quit key the run stops its device, destroys the windows and returns,
    and on any other key it is still streaming after the poll, with
    nothing stopped or closed.  This holds for [run_webcam] of
    webcam-test.py and for [run_realsense] and [run_webcam] of
    realsense-camera-test.py. *)
Theorem key_poll_ends_loop_on_q_or_esc int muladd32 COLORMAP_JET
    (we : WebcamTest.env) (re : RealsenseCameraTest.env) (k : nat) (key : Z) :
  (∀ frame,
     WebcamTest.cap_read we k = Returns (Some frame) →
     WebcamTest.imshow_raises we k = None →
     WebcamTest.waitKey we k = Returns key →
     WebcamTest.loop_body we k
     = ([CapRead true; Imshow "Normal Webcam" frame; WaitKey 1 key],
        Ok (if quit_key key then Break else Continue)))
  ∧ (∀ frame,
     RealsenseCameraTest.cap_read re k = Returns (Some frame) →
     RealsenseCameraTest.imshow_raises re k = None →
     RealsenseCameraTest.waitKey re k = Returns key →
     RealsenseCameraTest.webcam_body re k
     = ([CapRead true; Imshow "Normal Webcam" frame; WaitKey 1 key],
        Ok (if quit_key key then Break else Continue)))
  ∧ (∀ depth_image color_image images,
     RealsenseCameraTest.wait_for_frames re k = Returns (Some depth_image, Some color_image) →
     hstack color_image (depth_colormap muladd32 COLORMAP_JET depth_image) = Returns images →
     RealsenseCameraTest.imshow_raises re k = None →
     RealsenseCameraTest.waitKey re k = Returns key →
     RealsenseCameraTest.realsense_body muladd32 COLORMAP_JET re k
     = ([WaitForFrames true true; NamedWindow "RealSense Color and Depth";
         Imshow "RealSense Color and Depth" images; WaitKey 1 key],
        Ok (if quit_key key then Break else Continue)))
  ∧ (quit_key key = true ↔ Z.land key 0xFF = ord "q" ∨ key = 27)
  ∧ (0 ≤ key < 256 → (quit_key key = true ↔ key = ord "q" ∨ key = 27))
  ∧ quit_key (-1) = false
  (* [run_webcam] of webcam-test.py: its loop, its stream, the whole run *)
  ∧ (∀ frame,
     WebcamTest.cap_read we k = Returns (Some frame) →
     WebcamTest.imshow_raises we k = None →
     WebcamTest.waitKey we k = Returns key →
     (∀ fuel,
        while_true (WebcamTest.loop_body we) (S fuel) k
        = if quit_key key
          then ([CapRead true; Imshow "Normal Webcam" frame; WaitKey 1 key], Ok tt)
          else ([CapRead true; Imshow "Normal Webcam" frame; WaitKey 1 key]
                  ++ (while_true (WebcamTest.loop_body we) fuel (S k)).1,
                (while_true (WebcamTest.loop_body we) fuel (S k)).2))
     ∧ (∀ i,
        WebcamTest.stream_opens we i = true →
        reaches (WebcamTest.loop_body we) k →
        (quit_key key = true → ∀ fuel, (k < fuel)%nat →
           WebcamTest.start_stream we fuel i
           = (Print ("Starting webcam stream from index " +:+ pretty i +:+ "...")
                :: VideoCapture i None true
                :: earlier (WebcamTest.loop_body we) k
                ++ [CapRead true; Imshow "Normal Webcam" frame; WaitKey 1 key]
                ++ stopping_webcam i,
              Ok tt))
        ∧ (quit_key key = false →
           WebcamTest.start_stream we (S k) i
           = (Print ("Starting webcam stream from index " +:+ pretty i +:+ "...")
                :: VideoCapture i None true
                :: earlier (WebcamTest.loop_body we) k
                ++ [CapRead true; Imshow "Normal Webcam" frame; WaitKey 1 key],
              Streaming))
        ∧ (∀ sel,
           WebcamTest.selection_logic int we (found we) = (sel, Ok (Some i)) →
           (quit_key key = true → ∀ fuel, (k < fuel)%nat →
              WebcamTest.run_webcam int we fuel
              = (searching :: search_trace we ++ sel
                   ++ Print ("Starting webcam stream from index " +:+ pretty i +:+ "...")
                   :: VideoCapture i None true
                   :: earlier (WebcamTest.loop_body we) k
                   ++ [CapRead true; Imshow "Normal Webcam" frame; WaitKey 1 key]
                   ++ stopping_webcam i,
                 Ok tt))
           ∧ (quit_key key = false →
              WebcamTest.run_webcam int we (S k)
              = (searching :: search_trace we ++ sel
                   ++ Print ("Starting webcam stream from index " +:+ pretty i +:+ "...")
                   :: VideoCapture i None true
                   :: earlier (WebcamTest.loop_body we) k
                   ++ [CapRead true; Imshow "Normal Webcam" frame; WaitKey 1 key],
                 Streaming)))))
  (* [run_webcam] of realsense-camera-test.py: its loop and the run *)
  ∧ (∀ frame,
     RealsenseCameraTest.cap_read re k = Returns (Some frame) →
     RealsenseCameraTest.imshow_raises re k = None →
     RealsenseCameraTest.waitKey re k = Returns key →
     (∀ fuel,
        while_true (RealsenseCameraTest.webcam_body re) (S fuel) k
        = if quit_key key
          then ([CapRead true; Imshow "Normal Webcam" frame; WaitKey 1 key], Ok tt)
          else ([CapRead true; Imshow "Normal Webcam" frame; WaitKey 1 key]
                  ++ (while_true (RealsenseCameraTest.webcam_body re) fuel (S k)).1,
                (while_true (RealsenseCameraTest.webcam_body re) fuel (S k)).2))
     ∧ (RealsenseCameraTest.cap_opens re = true →
        reaches (RealsenseCameraTest.webcam_body re) k →
        (quit_key key = true → ∀ fuel, (k < fuel)%nat →
           RealsenseCameraTest.run_webcam re fuel
           = (VideoCapture 0 None true
                :: earlier (RealsenseCameraTest.webcam_body re) k
                ++ [CapRead true; Imshow "Normal Webcam" frame; WaitKey 1 key]
                ++ stopping_webcam 0,
              Ok tt))
        ∧ (quit_key key = false →
           RealsenseCameraTest.run_webcam re (S k)
           = (VideoCapture 0 None true
                :: earlier (RealsenseCameraTest.webcam_body re) k
                ++ [CapRead true; Imshow "Normal Webcam" frame; WaitKey 1 key],
              Streaming))))
  (* [run_realsense]: its loop and the run *)
  ∧ (∀ depth_image color_image images,
     RealsenseCameraTest.wait_for_frames re k = Returns (Some depth_image, Some color_image) →
     hstack color_image (depth_colormap muladd32 COLORMAP_JET depth_image) = Returns images →
     RealsenseCameraTest.imshow_raises re k = None →
     RealsenseCameraTest.waitKey re k = Returns key →
     (∀ fuel,
        while_true (RealsenseCameraTest.realsense_body muladd32 COLORMAP_JET re) (S fuel) k
        = if quit_key key
          then ([WaitForFrames true true; NamedWindow "RealSense Color and Depth";
                 Imshow "RealSense Color and Depth" images; WaitKey 1 key], Ok tt)
          else ([WaitForFrames true true; NamedWindow "RealSense Color and Depth";
                 Imshow "RealSense Color and Depth" images; WaitKey 1 key]
                  ++ (while_true (RealsenseCameraTest.realsense_body muladd32 COLORMAP_JET re)
                        fuel (S k)).1,
                (while_true (RealsenseCameraTest.realsense_body muladd32 COLORMAP_JET re)
                   fuel (S k)).2))
     ∧ (RealsenseCameraTest.pipeline_start re = None →
        reaches (RealsenseCameraTest.realsense_body muladd32 COLORMAP_JET re) k →
        (quit_key key = true → ∀ fuel, (k < fuel)%nat →
           RealsenseCameraTest.run_realsense muladd32 COLORMAP_JET re fuel
           = (Print "Starting RealSense pipeline..." :: PipelineStart
                :: earlier (RealsenseCameraTest.realsense_body muladd32 COLORMAP_JET re) k
                ++ [WaitForFrames true true; NamedWindow "RealSense Color and Depth";
                    Imshow "RealSense Color and Depth" images; WaitKey 1 key]
                ++ [Print "Stopping RealSense pipeline..."; PipelineStop;
                    DestroyAllWindows],
              Ok tt))
        ∧ (quit_key key = false →
           RealsenseCameraTest.run_realsense muladd32 COLORMAP_JET re (S k)
           = (Print "Starting RealSense pipeline..." :: PipelineStart
                :: earlier (RealsenseCameraTest.realsense_body muladd32 COLORMAP_JET re) k
                ++ [WaitForFrames true true; NamedWindow "RealSense Color and Depth";
                    Imshow "RealSense Color and Depth" images; WaitKey 1 key],
              Streaming)))).
Proof.
  split_and!.
  - intros frame. apply loop_body_shows.
  - intros frame. apply webcam_body_shows.
  - intros d c images. apply realsense_body_shows.
  - apply quit_key_iff.
  - intros Hsmall. rewrite quit_key_iff. by rewrite land_255_small.
  - reflexivity.
  - intros frame Hread Hshow Hkey.
    pose proof (loop_body_shows we k frame key Hread Hshow Hkey) as Hbody.
    unfold webcam_shows in Hbody.
    split; [intros fuel; by apply while_true_polled|].
    intros i Hopen Hreach. split_and!.
    + intros Hq fuel Hfuel. rewrite Hq in Hbody.
      by apply start_stream_breaks_at.
    + intros Hq. rewrite Hq in Hbody. by apply start_stream_continues_at.
    + intros sel Hsel. split.
      * intros Hq fuel Hfuel. rewrite Hq in Hbody.
        rewrite (run_webcam_selected int we fuel sel i Hsel).
        by rewrite (start_stream_breaks_at we k _ fuel i Hopen Hreach Hbody Hfuel).
      * intros Hq. rewrite Hq in Hbody.
        rewrite (run_webcam_selected int we (S k) sel i Hsel).
        by rewrite (start_stream_continues_at we k _ i Hopen Hreach Hbody).
  - intros frame Hread Hshow Hkey.
    pose proof (webcam_body_shows re k frame key Hread Hshow Hkey) as Hbody.
    unfold webcam_shows in Hbody.
    split; [intros fuel; by apply while_true_polled|].
    intros Hopen Hreach. split.
    + intros Hq fuel Hfuel. rewrite Hq in Hbody.
      by apply run_webcam_breaks_at.
    + intros Hq. rewrite Hq in Hbody. by apply run_webcam_continues_at.
  - intros d c images Hpair Hstack Hshow Hkey.
    pose proof (realsense_body_shows muladd32 COLORMAP_JET re k d c images key
                  Hpair Hstack Hshow Hkey) as Hbody.
    split; [intros fuel; by apply while_true_polled|].
    intros Hstart Hreach. split.
    + intros Hq fuel Hfuel. rewrite Hq in Hbody.
      by apply run_realsense_breaks_at.
    + intros Hq. rewrite Hq in Hbody. by apply run_realsense_continues_at.
Qed.

Lemma key_poll_ends_loop_on_q_or_esc_witness :
  WebcamTest.run_webcam int_decimal (webcam_env [2] "" true 3 (q_at 1)) 4
  = (searching :: search_trace (webcam_env [2] "" true 3 (q_at 1))
       ++ [Print "Starting webcam stream from index 2...";
           VideoCapture 2 None true;
           CapRead true; Imshow "Normal Webcam" frame22; WaitKey 1 (-1);
           CapRead true; Imshow "Normal Webcam" frame22; WaitKey 1 113;
           Print "Stopping webcam stream..."; Release 2 None; DestroyAllWindows],
     Ok tt)
  ∧ RealsenseCameraTest.run_webcam
      (realsense_env "2" None (λ k, Returns (drops_pairs 1 k)) true 3 (q_at 1)) 1
    = ([VideoCapture 0 None true;
        CapRead true; Imshow "Normal Webcam" frame22; WaitKey 1 (-1)],
       Streaming)
  ∧ RealsenseCameraTest.run_realsense muladd32_ieee two_tone
      (realsense_env "1" None (λ k, Returns (drops_pairs 1 k)) true 3 (q_at 1)) 4
    = ([Print "Starting RealSense pipeline..."; PipelineStart;
        WaitForFrames true false;
        WaitForFrames true true; NamedWindow "RealSense Color and Depth";
        Imshow "RealSense Color and Depth"
          [[(1, 2, 3); (4, 5, 6); (255, 0, 0); (0, 0, 255)];
           [(7, 8, 9); (10, 11, 12); (252, 0, 3); (0, 0, 255)]];
        WaitKey 1 113;
        Print "Stopping RealSense pipeline..."; PipelineStop; DestroyAllWindows],
       Ok tt).
Proof.
  destruct (key_poll_ends_loop_on_q_or_esc int_decimal muladd32_ieee two_tone
              (webcam_env [2] "" true 3 (q_at 1))
              (realsense_env "1" None (λ k, Returns (drops_pairs 1 k)) true 3 (q_at 1))
              1 113)
    as (_ & _ & _ & _ & _ & _ & Hrun & _ & Hsense).
  destruct (key_poll_ends_loop_on_q_or_esc int_decimal muladd32_ieee two_tone
              (webcam_env [2] "" true 3 (q_at 1))
              (realsense_env "2" None (λ k, Returns (drops_pairs 1 k)) true 3 (q_at 1))
              0 (-1))
    as (_ & _ & _ & _ & _ & _ & _ & Hcam & _).
  split; [|split].
  - destruct (Hrun frame22) as (_ & Hstream); [reflexivity..|].
    destruct (Hstream 2) as (_ & _ & Hsel).
    + reflexivity.
    + intros j Hj. destruct j as [|j]; [reflexivity|lia].
    + destruct (Hsel []) as (Hquit & _); [reflexivity|].
      apply (Hquit eq_refl 4%nat). lia.
  - destruct (Hcam frame22) as (_ & Hopen); [reflexivity..|].
    destruct Hopen as (_ & Hon).
    + reflexivity.
    + intros j Hj. lia.
    + apply (Hon eq_refl).
  - destruct (Hsense depth22 frame22
                [[(1, 2, 3); (4, 5, 6); (255, 0, 0); (0, 0, 255)];
                 [(7, 8, 9); (10, 11, 12); (252, 0, 3); (0, 0, 255)]])
      as (_ & Hstart); [reflexivity| vm_compute; reflexivity |reflexivity..|].
    destruct Hstart as (Hquit & _).
    + reflexivity.
    + intros j Hj. destruct j as [|j]; [reflexivity|lia].
    + apply (Hquit eq_refl 4%nat). lia.
Defined.
